(** * Lab2 Expenses API: a shallow embedding of [app.py] and its properties

    The service keeps three in-memory tables (users, categories, expense
    records) and a registry of id counters.  Every handler of [app.py] is
    embedded as a function from the request and the state before the call to
    the outcome and the state after it.

    Conventions of the embedding:
    - a Python [int] is a [Z]; a Python [str] is the [string] of its UTF-8
      bytes; a Python [float] is a [spec_float] at binary64;
    - [None] and JSON [null] are the same value, [JNull];
    - a Python [dict] keyed by integers is an insertion-ordered association
      list ([Dict]), because the handlers observe the iteration order;
    - an exception that no handler catches is an outcome of its own
      ([Raised]); Flask answers it with status 500.  The state at the moment
      of the raise is kept: Python does not roll anything back.  Three
      exceptions can escape: the [RecursionError] of [request.get_json] on a
      body nested beyond the interpreter's limit, the [AttributeError] of
      [.get] on a body that is not an object, and the [OverflowError] of
      [float] on an integer out of range;
    - the Python built-ins whose bodies are not part of the application
      ([str.lower], [int(str)], [datetime.fromisoformat]) are the fields of
      the class [PyRuntime]; the clock read by [datetime.utcnow()] is an
      argument of the one handler that reads it. *)

From Stdlib Require Import ZArith List Bool String Ascii Lia.
From Stdlib Require Import SpecFloat DecimalString Sorting.Sorted.
Import ListNotations.

Local Open Scope string_scope.
Local Open Scope list_scope.
Local Open Scope Z_scope.

Set Implicit Arguments.

(** ** Python values *)

(** What [request.get_json] yields and what [jsonify] takes. *)
#[local] Set Warnings "-register-all".
Inductive json : Type :=
| JNull
| JBool (b : bool)
| JInt (z : Z)
| JFloat (f : spec_float)
| JStr (s : string)
| JArr (xs : list json)
| JObj (kv : list (string * json)).
#[local] Set Warnings "register-all".

(** The values [v] with [isinstance(v, int)]: [bool] is a subclass of [int],
    and [True == 1], [False == 0], also as dict keys. *)
Inductive pyint : Type :=
| PInt (z : Z)
| PBool (b : bool).

Definition int_val (i : pyint) : Z :=
  match i with
  | PInt z => z
  | PBool true => 1
  | PBool false => 0
  end.

Definition pyint_json (i : pyint) : json :=
  match i with
  | PInt z => JInt z
  | PBool b => JBool b
  end.

(** [isinstance(v, int)], with the value when it holds. *)
Definition as_int (v : json) : option pyint :=
  match v with
  | JInt z => Some (PInt z)
  | JBool b => Some (PBool b)
  | _ => None
  end.

(** [str(z)], the decimal numeral that an f-string prints. *)
Definition str_of_Z (z : Z) : string := NilZero.string_of_int (Z.to_int z).

Definition str_of_pyint (i : pyint) : string :=
  match i with
  | PInt z => str_of_Z z
  | PBool true => "True"
  | PBool false => "False"
  end.

Definition float_is_zero (f : spec_float) : bool :=
  match f with
  | S754_zero _ => true
  | _ => false
  end.

(** [bool(v)]: what [not v] and [v or {}] test. *)
Definition py_truthy (v : json) : bool :=
  match v with
  | JNull => false
  | JBool b => b
  | JInt z => negb (z =? 0)
  | JFloat f => negb (float_is_zero f)
  | JStr s => negb (String.eqb s "")
  | JArr xs => match xs with [] => false | _ => true end
  | JObj kv => match kv with [] => false | _ => true end
  end.

(** The exceptions the handlers can let escape. *)
Inductive exn : Type :=
| RecursionError
| AttributeError
| OverflowError.

(** [float(z)] for an [int]: the nearest binary64, ties to even, and
    [OverflowError] when that is out of range. *)
Definition float_of_Z (z : Z) : exn + spec_float :=
  match binary_normalize 53 1024 z 0 false with
  | S754_infinity _ => inl OverflowError
  | f => inr f
  end.

Definition float_of_bool (b : bool) : spec_float :=
  if b then binary_normalize 53 1024 1 0 false else S754_zero false.

(** [isinstance(v, (int, float))], with the conversion [float(v)] delayed:
    the test never raises, the conversion can. *)
Definition is_number (v : json) : bool :=
  match v with
  | JInt _ | JBool _ | JFloat _ => true
  | _ => false
  end.

Definition py_float (v : json) : exn + spec_float :=
  match v with
  | JInt z => float_of_Z z
  | JBool b => inr (float_of_bool b)
  | JFloat f => inr f
  | _ => inl AttributeError
  end.

(** The binding of a key in a JSON object; a parsed object has one binding
    per key, which the association list represents by its first entry. *)
Fixpoint assoc {A : Type} (key : string) (kv : list (string * A)) : option A :=
  match kv with
  | [] => None
  | (k, v) :: rest => if String.eqb k key then Some v else assoc key rest
  end.

(** [data.get(key)], where the evaluation of [data] itself may have
    raised: then that exception is the outcome.  Else [None] for a key that
    is not bound, and [AttributeError] when [data] is not a dict (a list, a
    string and a number have no [get]). *)
Definition py_get (key : string) (data : exn + json) : exn + json :=
  match data with
  | inl e => inl e
  | inr (JObj kv) => inr (match assoc key kv with Some v => v | None => JNull end)
  | inr _ => inl AttributeError
  end.

(** [s.replace("Z", "+00:00")]. *)
Fixpoint replace_Z (s : string) : string :=
  match s with
  | EmptyString => EmptyString
  | String c rest =>
      if Ascii.eqb c "Z" then "+00:00" ++ replace_Z rest
      else String c (replace_Z rest)
  end.

(** ** The built-ins taken from the Python runtime *)

Class PyRuntime : Type := {
  (** [s.lower()] *)
  str_lower : string -> string;
  (** lowercasing maps characters to characters: only the empty string
      becomes empty *)
  str_lower_empty : forall s, str_lower s = "" <-> s = "";
  (** [int(s)]; [None] stands for [ValueError] *)
  int_of_str : string -> option Z;
  (** whether [datetime.fromisoformat(s)] returns rather than raises *)
  fromisoformat : string -> bool
}.

(** ** Insertion-ordered dictionaries with integer keys *)

Module Dict.
Section Ops.
Variable V : Type.

Definition t : Type := list (Z * V).

Definition empty : t := [].

(** [d.get(k)] *)
Fixpoint get (k : Z) (d : t) : option V :=
  match d with
  | [] => None
  | (k', v) :: rest => if k' =? k then Some v else get k rest
  end.

(** [k in d] *)
Definition contains (k : Z) (d : t) : bool :=
  existsb (fun kv => fst kv =? k) d.

(** [d[k] = v]: a bound key keeps its place, a new key goes last. *)
Fixpoint set (k : Z) (v : V) (d : t) : t :=
  match d with
  | [] => [(k, v)]
  | (k', v') :: rest =>
      if k' =? k then (k', v) :: rest else (k', v') :: set k v rest
  end.

(** [d.pop(k, None)], the popped value dropped.  Keys of a dict are
    unique, so dropping the entry of [k] is dropping every entry keyed
    [k]; the others keep their order. *)
Definition pop (k : Z) (d : t) : t :=
  filter (fun kv => negb (fst kv =? k)) d.

Definition keys (d : t) : list Z := map fst d.
Definition values (d : t) : list V := map snd d.
Definition items (d : t) : list (Z * V) := d.
Definition len (d : t) : Z := Z.of_nat (List.length d).

(** The representation invariant: one entry per key. *)
Definition wf (d : t) : Prop := NoDup (keys d).
End Ops.
End Dict.

Arguments Dict.empty {V}.
Arguments Dict.get {V} k d.
Arguments Dict.contains {V} k d.
Arguments Dict.set {V} k v d.
Arguments Dict.pop {V} k d.
Arguments Dict.keys {V} d.
Arguments Dict.values {V} d.
Arguments Dict.items {V} d.
Arguments Dict.len {V} d.
Arguments Dict.wf {V} d.

(** ** The tables and the counters *)

(** A value of [_users]: [{"id": ..., "name": ...}]. *)
Record user : Type := mkUser { u_id : Z; u_name : string }.

(** A value of [_categories]: [{"id": ..., "name": ...}]. *)
Record category : Type := mkCategory { c_id : Z; c_name : string }.

(** A value of [_records].  [user_id] and [category_id] are stored as they
    came in, so a boolean stays a boolean. *)
Record record : Type := mkRecord {
  r_id : Z;
  r_user_id : pyint;
  r_category_id : pyint;
  r_created_at : string;
  r_amount : spec_float
}.

(** The keys of [_counters]. *)
Inductive kind : Type := Kuser | Kcategory | Krecord.

(** [_counters = {"user": 0, "category": 0, "record": 0}] *)
Record counters : Type := mkCounters { n_user : Z; n_category : Z; n_record : Z }.

Definition counter (k : kind) (c : counters) : Z :=
  match k with
  | Kuser => n_user c
  | Kcategory => n_category c
  | Krecord => n_record c
  end.

Definition set_counter (k : kind) (n : Z) (c : counters) : counters :=
  match k with
  | Kuser => mkCounters n (n_category c) (n_record c)
  | Kcategory => mkCounters (n_user c) n (n_record c)
  | Krecord => mkCounters (n_user c) (n_category c) n
  end.

(** The module-level globals of [app.py]. *)
Record state : Type := mkState {
  _users : Dict.t user;
  _categories : Dict.t category;
  _records : Dict.t record;
  _counters : counters
}.

Definition initial_state : state :=
  mkState Dict.empty Dict.empty Dict.empty (mkCounters 0 0 0).

Definition with_users (d : Dict.t user) (st : state) : state :=
  mkState d (_categories st) (_records st) (_counters st).
Definition with_categories (d : Dict.t category) (st : state) : state :=
  mkState (_users st) d (_records st) (_counters st).
Definition with_records (d : Dict.t record) (st : state) : state :=
  mkState (_users st) (_categories st) d (_counters st).
Definition with_counters (c : counters) (st : state) : state :=
  mkState (_users st) (_categories st) (_records st) c.

(** [_counters[kind] += 1; return _counters[kind]] *)
Definition _next_id (k : kind) (st : state) : Z * state :=
  let c := set_counter k (counter k (_counters st) + 1) (_counters st) in
  (counter k c, with_counters c st).

(** ** Requests and outcomes *)

(** What the call [request.get_json(silent=True)] comes to.  [silent]
    silences the [ValueError] of a body that is not JSON, and the call then
    returns [None], as it does for an absent body.  The [RecursionError] that
    the parser raises on a body nested beyond the interpreter's recursion
    limit is no [ValueError]: it escapes the call. *)
Inductive json_read : Type :=
| ReadRaises
| Read (v : option json).

(** What a handler reads of the Flask request: the query string
    ([request.args], in order) and what [request.get_json(silent=True)]
    comes to when the handler calls it. *)
Record request : Type := mkRequest {
  args : list (string * string);
  get_json : json_read
}.

(** A handler returns a body and a status, or lets an exception escape. *)
Inductive result : Type :=
| Returned (body : json) (status : Z)
| Raised (e : exn).

(** [jsonify({"error": message}), status] *)
Definition _error (message : string) (status : Z) : result :=
  Returned (JObj [("error", JStr message)]) status.

(** [request.get_json(silent=True) or {}], or the exception of the call. *)
Definition json_or_empty (req : request) : exn + json :=
  match get_json req with
  | ReadRaises => inl RecursionError
  | Read (Some v) => inr (if py_truthy v then v else JObj [])
  | Read None => inr (JObj [])
  end.

Definition user_json (u : user) : json :=
  JObj [("id", JInt (u_id u)); ("name", JStr (u_name u))].

Definition category_json (c : category) : json :=
  JObj [("id", JInt (c_id c)); ("name", JStr (c_name c))].

Definition record_json (r : record) : json :=
  JObj [("id", JInt (r_id r));
        ("user_id", pyint_json (r_user_id r));
        ("category_id", pyint_json (r_category_id r));
        ("created_at", JStr (r_created_at r));
        ("amount", JFloat (r_amount r))].

(** The cascade shared by the two deletes that have dependants:
    [to_delete = [rid for rid, r in _records.items() if matches(r)]], then
    one [pop] per collected id. *)
Definition to_delete (matches : record -> bool) (d : Dict.t record) : list Z :=
  map fst (filter (fun kv => matches (snd kv)) (Dict.items d)).

Definition pop_all (rids : list Z) (d : Dict.t record) : Dict.t record :=
  fold_left (fun acc rid => Dict.pop rid acc) rids d.

(** ** The clock *)

(** A naive [datetime], as [datetime.utcnow()] returns it. *)
Record datetime : Type := mkDatetime {
  year : Z; month : Z; day : Z;
  hour : Z; minute : Z; second : Z; microsecond : Z
}.

Definition digit_char (d : Z) : ascii := ascii_of_nat (48 + Z.to_nat d).

(** ["%0<width>d" % n] for [0 <= n < 10 ^ width], which is where the fields
    of a [datetime] lie: the [width] decimal digits of [n], high digit first. *)
Fixpoint zpad (width : nat) (n : Z) : string :=
  match width with
  | O => ""
  | S w => String (digit_char ((n / 10 ^ Z.of_nat w) mod 10)) (zpad w n)
  end.

(** [t.isoformat()] for a naive [t]: [YYYY-MM-DDTHH:MM:SS], followed by
    [.ffffff] when the microsecond is not 0. *)
Definition isoformat (t : datetime) : string :=
  zpad 4 (year t) ++ "-" ++ zpad 2 (month t) ++ "-" ++ zpad 2 (day t) ++ "T"
  ++ zpad 2 (hour t) ++ ":" ++ zpad 2 (minute t) ++ ":" ++ zpad 2 (second t)
  ++ (if microsecond t =? 0 then "" else "." ++ zpad 6 (microsecond t)).

(** ** The handlers *)

Definition handler : Type := state -> result * state.

(** Return a response and leave the state as it is. *)
Definition respond (r : result) : handler := fun st => (r, st).

(** Run a step that can raise; the exception escapes the handler. *)
Definition try_ {A : Type} (r : exn + A) (k : A -> handler) : handler :=
  fun st =>
    match r with
    | inl e => (Raised e, st)
    | inr a => k a st
    end.

Notation "x <- e ;; k" := (try_ e (fun x => k))
  (at level 61, e at next level, right associativity).

Section Handlers.
Context {rt : PyRuntime}.

(** [request.args.get(key, type=int)]: the first value of [key], converted;
    [None] when the key is absent or the conversion raises. *)
Definition args_get_int (key : string) (req : request) : option Z :=
  match assoc key (args req) with
  | Some v => int_of_str v
  | None => None
  end.

Definition health : handler :=
  respond (Returned (JObj [("status", JStr "ok")]) 200).

Definition index : handler :=
  respond (Returned
    (JObj [("message", JStr "Lab2 Expenses API");
           ("try", JArr [JStr "/health"; JStr "/users"; JStr "/category";
                         JStr "/record?user_id=1"])]) 200).

(** *** Users *)

(** A stored user is a non-empty dict, so [not user] is [user is None]; the
    same holds of [get_record]. *)
Definition get_user (user_id : Z) : handler := fun st =>
  match Dict.get user_id (_users st) with
  | None => (_error ("user " ++ str_of_Z user_id ++ " not found") 404, st)
  | Some u => (Returned (user_json u) 200, st)
  end.

Definition delete_user (user_id : Z) : handler := fun st =>
  if negb (Dict.contains user_id (_users st)) then
    (_error ("user " ++ str_of_Z user_id ++ " not found") 404, st)
  else
    let rids := to_delete (fun r => int_val (r_user_id r) =? user_id) (_records st) in
    let st1 := with_records (pop_all rids (_records st)) st in
    let st2 := with_users (Dict.pop user_id (_users st1)) st1 in
    (Returned (JObj [("status", JStr "deleted");
                     ("user_id", JInt user_id);
                     ("deleted_records", JInt (Z.of_nat (List.length rids)))]) 200,
     st2).

Definition create_user (req : request) : handler :=
  let data := json_or_empty req in
  name <- py_get "name" data ;;
  match name with
  | JStr s =>
      if negb (py_truthy name) then
        respond (_error "field 'name' (string) is required" 400)
      else fun st =>
        let (user_id, st1) := _next_id Kuser st in
        let u := mkUser user_id s in
        (Returned (user_json u) 201,
         with_users (Dict.set user_id u (_users st1)) st1)
  | _ => (* [not name], or [not isinstance(name, str)] *)
      respond (_error "field 'name' (string) is required" 400)
  end.

Definition list_users : handler := fun st =>
  (Returned (JObj [("items", JArr (map user_json (Dict.values (_users st))));
                   ("total", JInt (Dict.len (_users st)))]) 200, st).

(** *** Categories *)

Definition list_categories : handler := fun st =>
  (Returned (JObj [("items", JArr (map category_json (Dict.values (_categories st))));
                   ("total", JInt (Dict.len (_categories st)))]) 200, st).

(** [any(c["name"].lower() == name.lower() for c in _categories.values())] *)
Definition name_taken (name : string) (d : Dict.t category) : bool :=
  existsb (fun c => String.eqb (str_lower (c_name c)) (str_lower name))
          (Dict.values d).

Definition create_category (req : request) : handler :=
  let data := json_or_empty req in
  name <- py_get "name" data ;;
  match name with
  | JStr s =>
      if negb (py_truthy name) then
        respond (_error "field 'name' (string) is required" 400)
      else fun st =>
        if name_taken s (_categories st) then
          (_error "category with this name already exists" 409, st)
        else
          let (cat_id, st1) := _next_id Kcategory st in
          let c := mkCategory cat_id s in
          (Returned (category_json c) 201,
           with_categories (Dict.set cat_id c (_categories st1)) st1)
  | _ =>
      respond (_error "field 'name' (string) is required" 400)
  end.

(** The id that [delete_category] goes on with: the query parameter when it
    converts, else whatever the body binds to ["id"]. *)
Definition category_id_source (req : request) : exn + json :=
  match args_get_int "id" req with
  | Some z => inr (JInt z)
  | None => py_get "id" (json_or_empty req)
  end.

Definition delete_category (req : request) : handler :=
  v <- category_id_source req ;;
  match as_int v with
  | None =>
      respond (_error
        "category id is required (query param ?id= or JSON {'id': number})" 400)
  | Some cat_id => fun st =>
      if negb (Dict.contains (int_val cat_id) (_categories st)) then
        (_error ("category " ++ str_of_pyint cat_id ++ " not found") 404, st)
      else
        let rids := to_delete
                      (fun r => int_val (r_category_id r) =? int_val cat_id)
                      (_records st) in
        let st1 := with_records (pop_all rids (_records st)) st in
        let st2 := with_categories
                     (Dict.pop (int_val cat_id) (_categories st1)) st1 in
        (Returned (JObj [("status", JStr "deleted");
                         ("category_id", pyint_json cat_id);
                         ("deleted_records", JInt (Z.of_nat (List.length rids)))]) 200,
         st2)
  end.

(** *** Records *)

Definition get_record (record_id : Z) : handler := fun st =>
  match Dict.get record_id (_records st) with
  | None => (_error ("record " ++ str_of_Z record_id ++ " not found") 404, st)
  | Some r => (Returned (record_json r) 200, st)
  end.

Definition delete_record (record_id : Z) : handler := fun st =>
  if negb (Dict.contains record_id (_records st)) then
    (_error ("record " ++ str_of_Z record_id ++ " not found") 404, st)
  else
    (Returned (JObj [("status", JStr "deleted"); ("record_id", JInt record_id)]) 200,
     with_records (Dict.pop record_id (_records st)) st).

(** The [created_at] that is stored: the clock when the field is [None];
    else the field itself when [fromisoformat] takes it.  The [try] of the
    source covers both the [replace] (an [AttributeError] when the field is
    not a string) and the parse; [None] here is its [except] branch. *)
Definition check_created_at (now : datetime) (created_at : json) : option string :=
  match created_at with
  | JNull => Some (isoformat now ++ "Z")%string
  | JStr s => if fromisoformat (replace_Z s) then Some s else None
  | _ => None
  end.

Definition create_record (now : datetime) (req : request) : handler :=
  let data := json_or_empty req in
  user_id <- py_get "user_id" data ;;
  category_id <- py_get "category_id" data ;;
  amount <- py_get "amount" data ;;
  created_at <- py_get "created_at" data ;;
  match as_int user_id with
  | None => respond (_error "field 'user_id' (int) is required" 400)
  | Some uid =>
  match as_int category_id with
  | None => respond (_error "field 'category_id' (int) is required" 400)
  | Some cid =>
  if negb (is_number amount) then
    respond (_error "field 'amount' (number) is required" 400)
  else fun st =>
  if negb (Dict.contains (int_val uid) (_users st)) then
    (_error ("user " ++ str_of_pyint uid ++ " not found") 404, st)
  else if negb (Dict.contains (int_val cid) (_categories st)) then
    (_error ("category " ++ str_of_pyint cid ++ " not found") 404, st)
  else
  match check_created_at now created_at with
  | None =>
      (_error "field 'created_at' must be ISO8601 string like 2025-10-13T10:00:00Z"
              400, st)
  | Some stamp =>
      let (rec_id, st1) := _next_id Krecord st in
      (amount_f <- py_float amount ;;
       fun st2 =>
         let r := mkRecord rec_id uid cid stamp amount_f in
         (Returned (record_json r) 201,
          with_records (Dict.set rec_id r (_records st2)) st2)) st1
  end
  end
  end.

Definition list_records (req : request) : handler := fun st =>
  let user_id := args_get_int "user_id" req in
  let category_id := args_get_int "category_id" req in
  match user_id, category_id with
  | None, None =>
      (_error "at least one of query params 'user_id' or 'category_id' is required"
              400, st)
  | _, _ =>
      let items := Dict.values (_records st) in
      let items :=
        match user_id with
        | Some u => filter (fun r => int_val (r_user_id r) =? u) items
        | None => items
        end in
      let items :=
        match category_id with
        | Some c => filter (fun r => int_val (r_category_id r) =? c) items
        | None => items
        end in
      (Returned (JObj [("items", JArr (map record_json items));
                       ("total", JInt (Z.of_nat (List.length items)))]) 200, st)
  end.

(** *** The router *)

(** One request to one route.  The [<int:...>] converter of a path only
    produces naturals; the handlers are embedded for every integer. *)
Inductive call : Type :=
| Health
| Index
| GetUser (user_id : Z)
| DeleteUser (user_id : Z)
| CreateUser (req : request)
| ListUsers
| ListCategories
| CreateCategory (req : request)
| DeleteCategory (req : request)
| GetRecord (record_id : Z)
| DeleteRecord (record_id : Z)
| CreateRecord (now : datetime) (req : request)
| ListRecords (req : request).

Definition dispatch (c : call) : handler :=
  match c with
  | Health => health
  | Index => index
  | GetUser i => get_user i
  | DeleteUser i => delete_user i
  | CreateUser req => create_user req
  | ListUsers => list_users
  | ListCategories => list_categories
  | CreateCategory req => create_category req
  | DeleteCategory req => delete_category req
  | GetRecord i => get_record i
  | DeleteRecord i => delete_record i
  | CreateRecord now req => create_record now req
  | ListRecords req => list_records req
  end.

(** The state after a sequence of requests, oldest first. *)
Definition run (cs : list call) (st : state) : state :=
  fold_left (fun s c => snd (dispatch c s)) cs st.

(** The outcomes of a sequence of requests, oldest first. *)
Fixpoint outcomes (cs : list call) (st : state) : list (call * result) :=
  match cs with
  | [] => []
  | c :: rest => (c, fst (dispatch c st)) :: outcomes rest (snd (dispatch c st))
  end.

(** The states the service can be in. *)
Inductive reachable : state -> Prop :=
| reachable_init : reachable initial_state
| reachable_step c st : reachable st -> reachable (snd (dispatch c st)).
End Handlers.

(** ** ISO-8601 timestamps *)

(** The extended calendar format [YYYY-MM-DDThh:mm:ss], an optional decimal
    fraction of the second, and an optional zone designator, [Z] or
    [+hh:mm] or [-hh:mm]; the fields are checked against the calendar. *)
Module Iso8601.

Definition is_digit (c : ascii) : bool :=
  let n := Z.of_nat (nat_of_ascii c) in (48 <=? n) && (n <=? 57).

Definition digit_val (c : ascii) : Z := Z.of_nat (nat_of_ascii c) - 48.

(** Read exactly [w] digits, most significant first. *)
Fixpoint take_num (w : nat) (acc : Z) (s : string) : option (Z * string) :=
  match w with
  | O => Some (acc, s)
  | S w' =>
      match s with
      | String c rest =>
          if is_digit c then take_num w' (10 * acc + digit_val c) rest else None
      | EmptyString => None
      end
  end.

Definition expect (c : ascii) (s : string) : option string :=
  match s with
  | String c' rest => if Ascii.eqb c' c then Some rest else None
  | EmptyString => None
  end.

(** Drop the digits at the front. *)
Fixpoint skip_digits (s : string) : string :=
  match s with
  | String c rest => if is_digit c then skip_digits rest else s
  | EmptyString => s
  end.

Definition leap_year (y : Z) : bool :=
  ((y mod 4 =? 0) && negb (y mod 100 =? 0)) || (y mod 400 =? 0).

Definition days_in_month (y m : Z) : Z :=
  if m =? 2 then (if leap_year y then 29 else 28)
  else if (m =? 4) || (m =? 6) || (m =? 9) || (m =? 11) then 30
  else 31.

Definition in_range (lo n hi : Z) : bool := (lo <=? n) && (n <=? hi).

Definition bind {A B : Type} (o : option A) (k : A -> option B) : option B :=
  match o with
  | Some a => k a
  | None => None
  end.

(** [hh:mm] of a zone offset, with nothing after it. *)
Definition offset_ok (s : string) : bool :=
  match bind (take_num 2 0 s) (fun '(h, s) =>
        bind (expect ":" s) (fun s =>
        bind (take_num 2 0 s) (fun '(m, s) =>
        Some (in_range 0 h 23 && in_range 0 m 59 && String.eqb s "")))) with
  | Some b => b
  | None => false
  end.

Definition zone_ok (s : string) : bool :=
  match s with
  | EmptyString => true
  | String c rest =>
      if Ascii.eqb c "Z" then String.eqb rest ""
      else if Ascii.eqb c "+" || Ascii.eqb c "-" then offset_ok rest
      else false
  end.

(** The fraction, when there is one, has at least one digit. *)
Definition fraction_then_zone (s : string) : bool :=
  match s with
  | String "." (String c rest) => is_digit c && zone_ok (skip_digits rest)
  | _ => zone_ok s
  end.

Definition parses (s : string) : bool :=
  match bind (take_num 4 0 s) (fun '(y, s) =>
        bind (expect "-" s) (fun s =>
        bind (take_num 2 0 s) (fun '(mo, s) =>
        bind (expect "-" s) (fun s =>
        bind (take_num 2 0 s) (fun '(d, s) =>
        bind (expect "T" s) (fun s =>
        bind (take_num 2 0 s) (fun '(h, s) =>
        bind (expect ":" s) (fun s =>
        bind (take_num 2 0 s) (fun '(mi, s) =>
        bind (expect ":" s) (fun s =>
        bind (take_num 2 0 s) (fun '(sec, s) =>
        Some (in_range 1 mo 12 && in_range 1 d (days_in_month y mo)
              && in_range 0 h 23 && in_range 0 mi 59 && in_range 0 sec 59
              && fraction_then_zone s)))))))))))) with
  | Some b => b
  | None => false
  end.

(** The class invariant of Python's [datetime]. *)
Definition valid_datetime (t : datetime) : bool :=
  in_range 1 (year t) 9999 && in_range 1 (month t) 12
  && in_range 1 (day t) (days_in_month (year t) (month t))
  && in_range 0 (hour t) 23 && in_range 0 (minute t) 59
  && in_range 0 (second t) 59 && in_range 0 (microsecond t) 999999.

(** Whether the last character of [s] is [c]. *)
Fixpoint ends_with (c : ascii) (s : string) : bool :=
  match s with
  | EmptyString => false
  | String c' EmptyString => Ascii.eqb c' c
  | String _ rest => ends_with c rest
  end.
End Iso8601.

(** ** A runtime to compute with *)

(** Lowercasing of the ASCII letters; the other bytes are kept. *)
Definition ascii_lower (c : ascii) : ascii :=
  let n := nat_of_ascii c in
  if (65 <=? n)%nat && (n <=? 90)%nat then ascii_of_nat (n + 32) else c.

Fixpoint lower_ascii (s : string) : string :=
  match s with
  | EmptyString => EmptyString
  | String c rest => String (ascii_lower c) (lower_ascii rest)
  end.

(** Decimal numerals with an optional sign. *)
Fixpoint digits_value (acc : Z) (s : string) : option Z :=
  match s with
  | EmptyString => Some acc
  | String c rest =>
      if Iso8601.is_digit c then digits_value (10 * acc + Iso8601.digit_val c) rest
      else None
  end.

Definition decimal_of_str (s : string) : option Z :=
  match s with
  | EmptyString => None
  | String "-" (String c rest) => option_map Z.opp (digits_value 0 (String c rest))
  | String "+" (String c rest) => digits_value 0 (String c rest)
  | _ => digits_value 0 s
  end.

Lemma lower_ascii_empty (s : string) : lower_ascii s = "" <-> s = "".
Proof. destruct s; simpl; split; (reflexivity || discriminate). Qed.

Definition ascii_runtime : PyRuntime :=
  {| str_lower := lower_ascii;
     str_lower_empty := lower_ascii_empty;
     int_of_str := decimal_of_str;
     fromisoformat := Iso8601.parses |}.

(** * Properties *)

(** ** Dictionaries *)

Module DictFacts.
Section Facts.
Variable V : Type.
Implicit Types (d : Dict.t V) (k : Z) (v : V).

Lemma contains_true k d : Dict.contains k d = true <-> In k (Dict.keys d).
Proof.
  unfold Dict.contains, Dict.keys. rewrite existsb_exists, in_map_iff.
  split; intros [kv [H1 H2]]; exists kv.
  - apply Z.eqb_eq in H2. auto.
  - split; [assumption | now apply Z.eqb_eq].
Qed.

Lemma contains_false k d : Dict.contains k d = false <-> ~ In k (Dict.keys d).
Proof.
  rewrite <- contains_true. destruct (Dict.contains k d); intuition congruence.
Qed.

Lemma get_Some_In k v d : Dict.get k d = Some v -> In (k, v) d.
Proof.
  induction d as [|[k' v'] rest IH]; simpl; [discriminate|].
  destruct (Z.eqb_spec k' k); intros H.
  - injection H as ->. subst. now left.
  - right. auto.
Qed.

Lemma wf_functional k v v' d :
  Dict.wf d -> In (k, v) d -> In (k, v') d -> v = v'.
Proof.
  unfold Dict.wf, Dict.keys.
  induction d as [|[k0 v0] rest IH]; simpl; [tauto|].
  intros Hnd [H1|H1] [H2|H2]; inversion Hnd as [|? ? Hnotin Hrest]; subst.
  - congruence.
  - injection H1 as -> ->. exfalso. apply Hnotin.
    change k with (fst (k, v')). now apply in_map.
  - injection H2 as -> ->. exfalso. apply Hnotin.
    change k with (fst (k, v)). now apply in_map.
  - auto.
Qed.

Lemma In_get k v d : Dict.wf d -> In (k, v) d -> Dict.get k d = Some v.
Proof.
  intros Hwf Hin. destruct (Dict.get k d) as [v'|] eqn:E.
  - f_equal. eapply wf_functional; eauto using get_Some_In.
  - exfalso. clear Hwf. induction d as [|[k' v'] rest IH]; simpl in *; [tauto|].
    destruct (Z.eqb_spec k' k); [discriminate|].
    destruct Hin as [H|H]; [congruence | auto].
Qed.

Lemma get_set_same k v d : Dict.get k (Dict.set k v d) = Some v.
Proof.
  induction d as [|[k' v'] rest IH]; simpl.
  - now rewrite Z.eqb_refl.
  - destruct (Z.eqb_spec k' k) as [->|Hne]; simpl.
    + now rewrite Z.eqb_refl.
    + destruct (Z.eqb_spec k' k); [contradiction | assumption].
Qed.

Lemma get_set_other k k' v d :
  k' <> k -> Dict.get k' (Dict.set k v d) = Dict.get k' d.
Proof.
  intros Hne. induction d as [|[k0 v0] rest IH]; simpl.
  - destruct (Z.eqb_spec k k'); [congruence | reflexivity].
  - destruct (Z.eqb_spec k0 k) as [->|Hk]; simpl.
    + destruct (Z.eqb_spec k k'); [congruence | reflexivity].
    + now rewrite IH.
Qed.

(** Binding a key that is not in the dict appends the entry. *)
Lemma set_fresh k v d :
  Dict.contains k d = false -> Dict.set k v d = d ++ [(k, v)].
Proof.
  unfold Dict.contains.
  induction d as [|[k' v'] rest IH]; simpl; [reflexivity|].
  destruct (Z.eqb_spec k' k); simpl; [discriminate|].
  intros H. now rewrite IH.
Qed.

Lemma keys_pop k d :
  Dict.keys (Dict.pop k d) = filter (fun x => negb (x =? k)) (Dict.keys d).
Proof.
  unfold Dict.keys, Dict.pop.
  induction d as [|[k' v'] rest IH]; simpl; [reflexivity|].
  destruct (k' =? k); simpl; now rewrite IH.
Qed.

Lemma contains_pop_same k d : Dict.contains k (Dict.pop k d) = false.
Proof.
  apply contains_false. rewrite keys_pop, filter_In.
  intros [_ H]. now rewrite Z.eqb_refl in H.
Qed.

Lemma contains_pop_other k k' d :
  k' <> k -> Dict.contains k' (Dict.pop k d) = Dict.contains k' d.
Proof.
  intros Hne. unfold Dict.contains, Dict.pop.
  induction d as [|[k0 v0] rest IH]; simpl; [reflexivity|].
  destruct (Z.eqb_spec k0 k) as [->|Hk]; simpl.
  - destruct (Z.eqb_spec k k'); [congruence | assumption].
  - now rewrite IH.
Qed.

Lemma get_pop_same k d : Dict.get k (Dict.pop k d) = None.
Proof.
  unfold Dict.pop. induction d as [|[k' v'] rest IH]; simpl; [reflexivity|].
  destruct (Z.eqb_spec k' k) as [->|Hne]; simpl; [assumption|].
  destruct (Z.eqb_spec k' k); [contradiction | assumption].
Qed.

Lemma get_pop_other k k' d :
  k' <> k -> Dict.get k' (Dict.pop k d) = Dict.get k' d.
Proof.
  intros Hne. unfold Dict.pop.
  induction d as [|[k0 v0] rest IH]; simpl; [reflexivity|].
  destruct (Z.eqb_spec k0 k) as [->|Hk]; simpl.
  - destruct (Z.eqb_spec k k'); [congruence | assumption].
  - now rewrite IH.
Qed.

Lemma wf_filter (p : Z * V -> bool) d : Dict.wf d -> Dict.wf (filter p d).
Proof.
  unfold Dict.wf, Dict.keys.
  induction d as [|kv rest IH]; simpl; [auto|].
  intros Hnd. inversion Hnd as [|? ? Hnotin Hrest]; subst.
  destruct (p kv); simpl; [constructor|]; auto.
  intros Hin. apply Hnotin. rewrite in_map_iff in *.
  destruct Hin as [x [Hx Hin]]. exists x. split; [assumption|].
  now apply filter_In in Hin.
Qed.

Lemma wf_pop k d : Dict.wf d -> Dict.wf (Dict.pop k d).
Proof. apply wf_filter. Qed.

Lemma wf_set_fresh k v d :
  Dict.wf d -> Dict.contains k d = false -> Dict.wf (Dict.set k v d).
Proof.
  intros Hwf Hk. rewrite set_fresh by assumption.
  unfold Dict.wf, Dict.keys in *. rewrite map_app. simpl.
  apply contains_false in Hk.
  apply NoDup_app; [assumption | repeat constructor; simpl; tauto |].
  intros x Hx [<-|[]]. auto.
Qed.

(** Popping one key of a dict removes one entry. *)
Lemma length_pop k d :
  Dict.wf d -> Dict.contains k d = true ->
  S (List.length (Dict.pop k d)) = List.length d.
Proof.
  unfold Dict.wf, Dict.keys, Dict.contains, Dict.pop.
  induction d as [|[k' v'] rest IH]; simpl; [discriminate|].
  intros Hnd Hk. inversion Hnd as [|? ? Hnotin Hrest]; subst.
  destruct (Z.eqb_spec k' k) as [->|Hne]; simpl.
  - f_equal. f_equal. clear IH Hk Hnd Hrest.
    induction rest as [|[k0 v0] r IHr]; simpl in *; [reflexivity|].
    destruct (Z.eqb_spec k0 k) as [->|]; simpl; [tauto|].
    f_equal. tauto.
  - f_equal. auto.
Qed.
End Facts.

(** The loop of pops drops the entries keyed by one of the ids. *)
Lemma pop_all_filter (rids : list Z) (d : Dict.t record) :
  pop_all rids d = filter (fun kv => negb (existsb (Z.eqb (fst kv)) rids)) d.
Proof.
  unfold pop_all. revert d.
  induction rids as [|rid rest IH]; intros d; simpl.
  - induction d as [|kv r IHd]; simpl; [reflexivity | now rewrite <- IHd].
  - rewrite IH. unfold Dict.pop.
    induction d as [|kv r IHd]; simpl; [reflexivity|].
    rewrite (Z.eqb_sym (fst kv) rid).
    destruct (rid =? fst kv); simpl.
    + assumption.
    + destruct (existsb (Z.eqb (fst kv)) rest); simpl; now rewrite IHd.
Qed.

(** The cascade removes the matching records and no other. *)
Lemma cascade_filter (matches : record -> bool) (d : Dict.t record) :
  Dict.wf d ->
  pop_all (to_delete matches d) d = filter (fun kv => negb (matches (snd kv))) d.
Proof.
  intros Hwf. rewrite pop_all_filter. apply filter_ext_in.
  intros [k r] Hin. simpl. f_equal.
  destruct (matches r) eqn:Hm.
  - apply existsb_exists. exists k. split; [|apply Z.eqb_refl].
    unfold to_delete, Dict.items. apply in_map_iff.
    exists (k, r). split; [reflexivity|]. apply filter_In. auto.
  - destruct (existsb (Z.eqb k) (to_delete matches d)) eqn:He; [|reflexivity].
    apply existsb_exists in He. destruct He as [k' [Hk' Heq]].
    apply Z.eqb_eq in Heq. subst k'.
    unfold to_delete, Dict.items in Hk'. apply in_map_iff in Hk'.
    destruct Hk' as [[k1 r1] [Hfst Hin1]]. simpl in Hfst. subst k1.
    apply filter_In in Hin1. destruct Hin1 as [Hin1 Hm1]. simpl in Hm1.
    assert (r = r1) by (eapply wf_functional; eauto). congruence.
Qed.

Lemma length_to_delete (matches : record -> bool) (d : Dict.t record) :
  List.length (to_delete matches d) = List.length (filter matches (Dict.values d)).
Proof.
  unfold to_delete, Dict.items, Dict.values. rewrite length_map.
  induction d as [|[k r] rest IH]; simpl; [reflexivity|].
  destruct (matches r); simpl; now rewrite IH.
Qed.
End DictFacts.

(** ** The state invariant *)

Fixpoint nodupb (l : list Z) : bool :=
  match l with
  | [] => true
  | x :: rest => negb (existsb (Z.eqb x) rest) && nodupb rest
  end.

(** A table has one entry per key, no key above the counter of its kind,
    and under each key the entity that carries it as its id. *)
Definition table_ok {V : Type} (id_of : V -> Z) (n : Z) (d : Dict.t V) : bool :=
  nodupb (Dict.keys d)
  && forallb (fun kv => (fst kv <=? n) && (id_of (snd kv) =? fst kv)) d.

(** What holds of the globals between two requests. *)
Definition state_ok (st : state) : bool :=
  table_ok u_id (n_user (_counters st)) (_users st)
  && table_ok c_id (n_category (_counters st)) (_categories st)
  && table_ok r_id (n_record (_counters st)) (_records st)
  && forallb (fun c => negb (String.eqb (c_name c) "")) (Dict.values (_categories st)).

Definition table_inv {V : Type} (id_of : V -> Z) (n : Z) (d : Dict.t V) : Prop :=
  Dict.wf d /\ forall k v, In (k, v) d -> k <= n /\ id_of v = k.

Definition state_inv (st : state) : Prop :=
  table_inv u_id (n_user (_counters st)) (_users st)
  /\ table_inv c_id (n_category (_counters st)) (_categories st)
  /\ table_inv r_id (n_record (_counters st)) (_records st)
  /\ forall c, In c (Dict.values (_categories st)) -> c_name c <> "".

Lemma nodupb_NoDup (l : list Z) : nodupb l = true <-> NoDup l.
Proof.
  induction l as [|x rest IH]; simpl.
  - split; [constructor | reflexivity].
  - rewrite andb_true_iff, negb_true_iff, IH. split.
    + intros [Hx Hrest]. constructor; [|assumption].
      intros Hin. apply not_true_iff_false in Hx. apply Hx.
      apply existsb_exists. exists x. split; [assumption | apply Z.eqb_refl].
    + intros Hnd. inversion Hnd as [|? ? Hnotin Hrest]; subst.
      split; [|assumption]. apply not_true_iff_false. intros Hex.
      apply existsb_exists in Hex. destruct Hex as [y [Hy Heq]].
      apply Z.eqb_eq in Heq. now subst y.
Qed.

Lemma table_ok_inv {V : Type} (id_of : V -> Z) (n : Z) (d : Dict.t V) :
  table_ok id_of n d = true <-> table_inv id_of n d.
Proof.
  unfold table_ok, table_inv, Dict.wf.
  rewrite andb_true_iff, nodupb_NoDup, forallb_forall.
  split; intros [Hnd Hall]; (split; [assumption|]).
  - intros k v Hin. specialize (Hall _ Hin). simpl in Hall.
    apply andb_true_iff in Hall. destruct Hall as [H1 H2].
    apply Z.leb_le in H1. apply Z.eqb_eq in H2. auto.
  - intros [k v] Hin. destruct (Hall _ _ Hin) as [H1 H2]. simpl.
    apply andb_true_iff. split; [now apply Z.leb_le | now apply Z.eqb_eq].
Qed.

Lemma state_ok_inv (st : state) : state_ok st = true <-> state_inv st.
Proof.
  unfold state_ok, state_inv.
  rewrite !andb_true_iff, !table_ok_inv, forallb_forall.
  assert (Hn : forall c : category,
             negb (String.eqb (c_name c) "") = true <-> c_name c <> "").
  { intros c. rewrite negb_true_iff. destruct (String.eqb_spec (c_name c) "").
    - split; [discriminate | contradiction].
    - split; [auto | reflexivity]. }
  split.
  - intros [[[H1 H2] H3] H4]. split; [|split; [|split]]; try assumption.
    intros c Hc. apply Hn. auto.
  - intros [H1 [H2 [H3 H4]]]. split; [split; [split|]|]; try assumption.
    intros c Hc. apply Hn. auto.
Qed.

Section TableInv.
Variables (V : Type) (id_of : V -> Z).
Implicit Types (d : Dict.t V) (n k : Z) (v : V).

Lemma table_inv_mono n n' d :
  n <= n' -> table_inv id_of n d -> table_inv id_of n' d.
Proof.
  intros Hle [Hwf Hall]. split; [assumption|].
  intros k v Hin. destruct (Hall k v Hin). split; [lia | assumption].
Qed.

Lemma table_inv_filter (p : Z * V -> bool) n d :
  table_inv id_of n d -> table_inv id_of n (filter p d).
Proof.
  intros [Hwf Hall]. split; [now apply DictFacts.wf_filter|].
  intros k v Hin. apply filter_In in Hin. apply Hall. tauto.
Qed.

(** The next id is not a key yet. *)
Lemma table_inv_fresh n d :
  table_inv id_of n d -> Dict.contains (n + 1) d = false.
Proof.
  intros [_ Hall]. apply DictFacts.contains_false.
  unfold Dict.keys. rewrite in_map_iff. intros [[k v] [Hk Hin]].
  simpl in Hk. subst k. destruct (Hall _ _ Hin). lia.
Qed.

Lemma table_inv_set_next n d v :
  table_inv id_of n d -> id_of v = n + 1 ->
  table_inv id_of (n + 1) (Dict.set (n + 1) v d).
Proof.
  intros Hinv Hid. pose proof (table_inv_fresh Hinv) as Hfresh.
  destruct Hinv as [Hwf Hall]. split.
  - now apply DictFacts.wf_set_fresh.
  - rewrite DictFacts.set_fresh by assumption.
    intros k v' Hin. apply in_app_or in Hin. destruct Hin as [Hin|[Heq|[]]].
    + destruct (Hall _ _ Hin). split; [lia | assumption].
    + injection Heq as <- <-. split; [lia | assumption].
Qed.
End TableInv.

Lemma initial_state_ok : state_ok initial_state = true.
Proof. reflexivity. Qed.

Section Preservation.
Context {rt : PyRuntime}.

Lemma delete_user_inv user_id st :
  state_inv st -> state_inv (snd (delete_user user_id st)).
Proof.
  intros Hinv. unfold delete_user.
  destruct (negb (Dict.contains user_id (_users st))); [assumption|].
  destruct Hinv as (Hu & Hc & Hr & Hn). simpl.
  rewrite DictFacts.pop_all_filter.
  split; [now apply table_inv_filter|].
  split; [assumption|]. split; [now apply table_inv_filter | assumption].
Qed.

Lemma create_user_inv req st :
  state_inv st -> state_inv (snd (create_user req st)).
Proof.
  intros Hinv. unfold create_user, try_, respond.
  destruct (py_get "name" (json_or_empty req)) as [e|name]; [assumption|].
  destruct name; try assumption.
  destruct (negb (py_truthy (JStr s))); [assumption|].
  destruct Hinv as (Hu & Hc & Hr & Hn). simpl.
  split; [now apply table_inv_set_next|].
  split; [assumption|]. split; assumption.
Qed.

Lemma create_category_inv req st :
  state_inv st -> state_inv (snd (create_category req st)).
Proof.
  intros Hinv. unfold create_category, try_, respond.
  destruct (py_get "name" (json_or_empty req)) as [e|name]; [assumption|].
  destruct name; try assumption.
  destruct (negb (py_truthy (JStr s))) eqn:Hs; [assumption|].
  destruct (name_taken s (_categories st)); [assumption|].
  destruct Hinv as (Hu & Hc & Hr & Hn). simpl.
  split; [assumption|]. split; [now apply table_inv_set_next|].
  split; [assumption|].
  intros c Hin. cbn [_categories with_categories with_counters] in Hin.
  rewrite DictFacts.set_fresh in Hin
    by (eapply table_inv_fresh; eassumption).
  unfold Dict.values in Hin. rewrite map_app in Hin.
  apply in_app_or in Hin. destruct Hin as [Hin|[<-|[]]]; [now apply Hn|].
  simpl. simpl in Hs. apply negb_false_iff, negb_true_iff in Hs.
  intros ->. discriminate.
Qed.

Lemma delete_category_inv req st :
  state_inv st -> state_inv (snd (delete_category req st)).
Proof.
  intros Hinv. unfold delete_category, try_, respond.
  destruct (category_id_source req) as [e|v]; [assumption|].
  destruct (as_int v) as [cat_id|]; [|assumption].
  destruct (negb (Dict.contains (int_val cat_id) (_categories st))); [assumption|].
  destruct Hinv as (Hu & Hc & Hr & Hn). simpl.
  rewrite DictFacts.pop_all_filter.
  split; [assumption|]. split; [now apply table_inv_filter|].
  split; [now apply table_inv_filter|].
  intros c Hin. apply Hn. unfold Dict.values, Dict.pop in *.
  apply in_map_iff in Hin. destruct Hin as [kv [<- Hin]].
  apply filter_In in Hin. apply in_map. tauto.
Qed.

Lemma delete_record_inv record_id st :
  state_inv st -> state_inv (snd (delete_record record_id st)).
Proof.
  intros Hinv. unfold delete_record.
  destruct (negb (Dict.contains record_id (_records st))); [assumption|].
  destruct Hinv as (Hu & Hc & Hr & Hn). simpl.
  split; [assumption|]. split; [assumption|].
  split; [now apply table_inv_filter | assumption].
Qed.

Lemma create_record_inv now req st :
  state_inv st -> state_inv (snd (create_record now req st)).
Proof.
  intros Hinv. unfold create_record, try_, respond.
  destruct (py_get "user_id" (json_or_empty req)) as [e|user_id]; [assumption|].
  destruct (py_get "category_id" (json_or_empty req)) as [e|category_id];
    [assumption|].
  destruct (py_get "amount" (json_or_empty req)) as [e|amount]; [assumption|].
  destruct (py_get "created_at" (json_or_empty req)) as [e|created_at];
    [assumption|].
  destruct (as_int user_id) as [uid|]; [|assumption].
  destruct (as_int category_id) as [cid|]; [|assumption].
  destruct (negb (is_number amount)); [assumption|].
  destruct (negb (Dict.contains (int_val uid) (_users st))); [assumption|].
  destruct (negb (Dict.contains (int_val cid) (_categories st))); [assumption|].
  destruct (check_created_at now created_at) as [stamp|]; [|assumption].
  destruct Hinv as (Hu & Hc & Hr & Hn). simpl.
  destruct (py_float amount) as [e|amount_f]; unfold state_inv; simpl.
  - split; [assumption|]. split; [assumption|]. split; [|assumption].
    eapply table_inv_mono; [|eassumption]. lia.
  - split; [assumption|]. split; [assumption|]. split; [|assumption].
    now apply table_inv_set_next.
Qed.

(** Every request keeps the invariant, whatever its outcome. *)
Lemma dispatch_inv c st : state_inv st -> state_inv (snd (dispatch c st)).
Proof.
  intros Hinv. destruct c; simpl;
    auto using delete_user_inv, create_user_inv, create_category_inv,
               delete_category_inv, delete_record_inv, create_record_inv.
  - unfold get_user. now destruct (Dict.get user_id (_users st)).
  - unfold get_record. now destruct (Dict.get record_id (_records st)).
  - unfold list_records.
    now destruct (args_get_int "user_id" req), (args_get_int "category_id" req).
Qed.

Lemma reachable_ok st : reachable st -> state_ok st = true.
Proof.
  intros Hr. apply state_ok_inv.
  induction Hr as [|c st Hr IH].
  - apply state_ok_inv, initial_state_ok.
  - now apply dispatch_inv.
Qed.

Lemma run_reachable cs : reachable (run cs initial_state).
Proof.
  unfold run. generalize reachable_init. generalize initial_state.
  induction cs as [|c rest IH]; intros st Hst; simpl; [assumption|].
  apply IH. now constructor.
Qed.
End Preservation.

(** ** Sample data *)

Definition json_request (kv : list (string * json)) : request :=
  mkRequest [] (Read (Some (JObj kv))).

Definition query_request (q : list (string * string)) : request :=
  mkRequest q (Read None).

Definition sample_now : datetime := mkDatetime 2025 10 13 10 0 0 0.

(** Two users, two categories and three records, the second one created
    with JSON [true] for both references. *)
Definition sample_calls : list call :=
  [CreateUser (json_request [("name", JStr "ann")]);
   CreateUser (json_request [("name", JStr "bob")]);
   CreateCategory (json_request [("name", JStr "Food")]);
   CreateCategory (json_request [("name", JStr "Rent")]);
   CreateRecord sample_now
     (json_request [("user_id", JInt 1); ("category_id", JInt 2);
                    ("amount", JInt 700)]);
   CreateRecord sample_now
     (json_request [("user_id", JBool true); ("category_id", JBool true);
                    ("amount", JInt 5)]);
   CreateRecord sample_now
     (json_request [("user_id", JInt 2); ("category_id", JInt 1);
                    ("amount", JInt 12);
                    ("created_at", JStr "2025-10-13T10:00:00Z")])].

Definition sample_state : state :=
  Eval vm_compute in run (rt := ascii_runtime) sample_calls initial_state.

(** ** Deleting a user *)

(** The records of a user, by Python's [==]: [True == 1]. *)
Definition owned_by (user_id : Z) (r : record) : bool :=
  int_val (r_user_id r) =? user_id.

(** C1: for a user id in the users table, [delete_user] removes that
    user, removes exactly the records whose [user_id] equals the id (the
    others stay, in their order) and reports how many it removed; for an id
    that is not in the table it answers 404 and changes nothing. *)
Theorem delete_user_cascades (st : state) (user_id : Z) :
  state_ok st = true ->
  (Dict.contains user_id (_users st) = true ->
     delete_user user_id st =
       (Returned
          (JObj [("status", JStr "deleted");
                 ("user_id", JInt user_id);
                 ("deleted_records",
                  JInt (Z.of_nat (List.length
                                    (filter (owned_by user_id)
                                            (Dict.values (_records st))))))])
          200,
        mkState (Dict.pop user_id (_users st))
                (_categories st)
                (filter (fun kv => negb (owned_by user_id (snd kv))) (_records st))
                (_counters st))
     /\ Dict.get user_id (Dict.pop user_id (_users st)) = None
     /\ (forall k, k <> user_id ->
           Dict.get k (Dict.pop user_id (_users st)) = Dict.get k (_users st)))
  /\ (Dict.contains user_id (_users st) = false ->
        delete_user user_id st =
          (_error ("user " ++ str_of_Z user_id ++ " not found") 404, st)).
Proof.
  intros Hok. apply state_ok_inv in Hok. destruct Hok as (_ & _ & [Hwf _] & _).
  unfold delete_user. split; intros Hin; rewrite Hin; simpl; [|reflexivity].
  split; [|split].
  - rewrite DictFacts.cascade_filter, DictFacts.length_to_delete by assumption.
    reflexivity.
  - apply DictFacts.get_pop_same.
  - intros k Hk. now apply DictFacts.get_pop_other.
Qed.

Lemma delete_user_cascades_witness :
  state_ok sample_state = true
  /\ Dict.contains 1 (_users sample_state) = true
  /\ fst (delete_user 1 sample_state) =
       Returned (JObj [("status", JStr "deleted"); ("user_id", JInt 1);
                       ("deleted_records", JInt 2)]) 200
  /\ Dict.keys (_records (snd (delete_user 1 sample_state))) = [3].
Proof.
  split; [reflexivity|]. split; [reflexivity|].
  destruct (delete_user_cascades sample_state 1 eq_refl) as [Hin _].
  destruct (Hin eq_refl) as [Heq _].
  rewrite Heq. split; reflexivity.
Defined.

(** ** Deleting a record *)

(** C10: for a record id in the records table, [delete_record] removes that
    record and nothing else: the other records keep their bindings and their
    order, and the users, the categories and the three counters are the
    same. *)
Theorem delete_record_frame (st : state) (record_id : Z) :
  state_ok st = true ->
  Dict.contains record_id (_records st) = true ->
  exists records' : Dict.t record,
    delete_record record_id st =
      (Returned (JObj [("status", JStr "deleted"); ("record_id", JInt record_id)])
                200,
       mkState (_users st) (_categories st) records' (_counters st))
    /\ records' = filter (fun kv => negb (fst kv =? record_id)) (_records st)
    /\ Dict.get record_id records' = None
    /\ (forall k, k <> record_id -> Dict.get k records' = Dict.get k (_records st))
    /\ S (List.length records') = List.length (_records st).
Proof.
  intros Hok Hin. apply state_ok_inv in Hok.
  destruct Hok as (_ & _ & [Hwf _] & _).
  exists (Dict.pop record_id (_records st)).
  unfold delete_record. rewrite Hin. simpl.
  split; [reflexivity|]. split; [reflexivity|]. split; [|split].
  - apply DictFacts.get_pop_same.
  - intros k Hk. now apply DictFacts.get_pop_other.
  - now apply DictFacts.length_pop.
Qed.

Lemma delete_record_frame_witness :
  state_ok sample_state = true
  /\ Dict.contains 2 (_records sample_state) = true
  /\ Dict.keys (_records (snd (delete_record 2 sample_state))) = [1; 3]
  /\ _counters (snd (delete_record 2 sample_state)) = mkCounters 2 2 3.
Proof.
  split; [reflexivity|]. split; [reflexivity|].
  destruct (delete_record_frame sample_state 2 eq_refl eq_refl)
    as (records' & Heq & Hr & _).
  rewrite Heq, Hr. split; reflexivity.
Defined.

(** ** Failed creations of a record *)

(** C2: when [create_record] answers 400 or 404 (an unknown user or
    category and an unparseable [created_at] among the causes) the state is
    the one before the call: no record is stored and the record counter is
    not moved, so any later [create_record] does what it would have done
    without the failed call. *)
Theorem create_record_failure_keeps_state
    (rt : PyRuntime) (now : datetime) (req : request) (st st' : state)
    (body : json) (status : Z) :
  create_record now req st = (Returned body status, st') ->
  status = 400 \/ status = 404 ->
  st' = st
  /\ _records st' = _records st
  /\ counter Krecord (_counters st') = counter Krecord (_counters st)
  /\ forall now2 req2, create_record now2 req2 st' = create_record now2 req2 st.
Proof.
  intros Hrun Hstatus.
  assert (Hst : st' = st); [|subst st'; auto].
  revert Hrun. unfold create_record, try_, respond, _error.
  destruct (py_get "user_id" (json_or_empty req)) as [e|user_id]; [discriminate|].
  destruct (py_get "category_id" (json_or_empty req)) as [e|category_id];
    [discriminate|].
  destruct (py_get "amount" (json_or_empty req)) as [e|amount]; [discriminate|].
  destruct (py_get "created_at" (json_or_empty req)) as [e|created_at];
    [discriminate|].
  destruct (as_int user_id) as [uid|]; [|congruence].
  destruct (as_int category_id) as [cid|]; [|congruence].
  destruct (negb (is_number amount)); [congruence|].
  destruct (negb (Dict.contains (int_val uid) (_users st))); [congruence|].
  destruct (negb (Dict.contains (int_val cid) (_categories st))); [congruence|].
  destruct (check_created_at now created_at) as [stamp|]; [|congruence].
  simpl. destruct (py_float amount) as [e|amount_f]; [discriminate|].
  intros [= _ <- _]. lia.
Qed.

(** An unknown user, an unknown category and an unparseable [created_at]
    are among these failures. *)
Lemma create_record_named_failures
    (rt : PyRuntime) (now : datetime) (req : request) (st : state)
    (kv : list (string * json)) (uid cid : pyint) (amount : json) :
  json_or_empty req = inr (JObj kv) ->
  py_get "user_id" (inr (JObj kv)) = inr (pyint_json uid) ->
  py_get "category_id" (inr (JObj kv)) = inr (pyint_json cid) ->
  py_get "amount" (inr (JObj kv)) = inr amount ->
  is_number amount = true ->
  (Dict.contains (int_val uid) (_users st) = false ->
     create_record now req st =
       (_error ("user " ++ str_of_pyint uid ++ " not found") 404, st))
  /\ (Dict.contains (int_val uid) (_users st) = true ->
      Dict.contains (int_val cid) (_categories st) = false ->
      create_record now req st =
        (_error ("category " ++ str_of_pyint cid ++ " not found") 404, st))
  /\ (Dict.contains (int_val uid) (_users st) = true ->
      Dict.contains (int_val cid) (_categories st) = true ->
      forall s, py_get "created_at" (inr (JObj kv)) = inr (JStr s) ->
      fromisoformat (replace_Z s) = false ->
      create_record now req st =
        (_error "field 'created_at' must be ISO8601 string like 2025-10-13T10:00:00Z"
                400, st)).
Proof.
  intros Hdata Hu Hc Ha Hnum. unfold create_record, try_, respond.
  rewrite Hdata, Hu, Hc, Ha.
  assert (Hget : exists v, py_get "created_at" (inr (JObj kv)) = inr v)
    by (simpl; eauto).
  destruct Hget as [v Hv].
  assert (Hiu : as_int (pyint_json uid) = Some uid) by now destruct uid.
  assert (Hic : as_int (pyint_json cid) = Some cid) by now destruct cid.
  repeat split.
  - intros Hno. rewrite Hv, Hiu, Hic, Hnum. simpl. now rewrite Hno.
  - intros Hyes Hno. rewrite Hv, Hiu, Hic, Hnum. simpl. now rewrite Hyes, Hno.
  - intros Hyes Hyes' s Hs Hbad. rewrite Hs, Hiu, Hic, Hnum. simpl.
    now rewrite Hyes, Hyes', Hbad.
Qed.

Lemma create_record_failure_keeps_state_witness :
  create_record (rt := ascii_runtime) sample_now
    (json_request [("user_id", JInt 99); ("category_id", JInt 1);
                   ("amount", JInt 5)]) sample_state =
    (_error "user 99 not found" 404, sample_state)
  /\ _records sample_state = _records sample_state
  /\ counter Krecord (_counters sample_state)
     = counter Krecord (_counters sample_state).
Proof.
  assert (Hrun : create_record (rt := ascii_runtime) sample_now
            (json_request [("user_id", JInt 99); ("category_id", JInt 1);
                           ("amount", JInt 5)]) sample_state =
          (_error "user 99 not found" 404, sample_state)) by reflexivity.
  split; [exact Hrun|].
  destruct (create_record_failure_keeps_state _ _ _ _ Hrun (or_intror eq_refl))
    as (_ & Hr & Hc & _).
  split; [exact Hr | exact Hc].
Defined.

(** ** Listing records *)

(** Whether a field passes a filter that may not have been supplied. *)
Definition passes (filter_id : option Z) (field : pyint) : bool :=
  match filter_id with
  | Some z => int_val field =? z
  | None => true
  end.

Lemma filter_filter {A : Type} (p q : A -> bool) (l : list A) :
  filter q (filter p l) = filter (fun x => p x && q x) l.
Proof.
  induction l as [|x rest IH]; simpl; [reflexivity|].
  destruct (p x); simpl; [destruct (q x)|]; now rewrite IH.
Qed.

(** The records that pass every supplied filter, in the order of [rs]. *)
Definition matching (user_id category_id : option Z) (rs : list record)
  : list record :=
  filter (fun r => passes user_id (r_user_id r)
                   && passes category_id (r_category_id r)) rs.

(** C5: [list_records] answers 400 when neither [user_id] nor
    [category_id] is supplied (as a query value that [int] converts); when at
    least one is, it returns the records that pass every supplied filter,
    both when both are given, in the order of the table, and [total] is the
    number of items returned. *)
Theorem list_records_filters (rt : PyRuntime) (req : request) (st : state) :
  (args_get_int "user_id" req = None /\ args_get_int "category_id" req = None ->
     list_records req st =
       (_error "at least one of query params 'user_id' or 'category_id' is required"
               400, st))
  /\ (args_get_int "user_id" req <> None \/ args_get_int "category_id" req <> None ->
      exists items,
        items = matching (args_get_int "user_id" req)
                         (args_get_int "category_id" req)
                         (Dict.values (_records st))
        /\ list_records req st =
             (Returned (JObj [("items", JArr (map record_json items));
                              ("total", JInt (Z.of_nat (List.length items)))])
                       200, st)).
Proof.
  unfold list_records, matching.
  destruct (args_get_int "user_id" req) as [u|],
           (args_get_int "category_id" req) as [c|]; simpl; split;
    try (intros [? ?]; discriminate); try (intros [?|?]; congruence);
    try reflexivity; intros _; eexists; (split; [reflexivity|]).
  - now rewrite filter_filter.
  - rewrite (filter_ext (fun r => (int_val (r_user_id r) =? u) && true)
                        (fun r => int_val (r_user_id r) =? u));
      [reflexivity | intros r; apply andb_true_r].
  - reflexivity.
Qed.

Lemma list_records_filters_witness :
  args_get_int (rt := ascii_runtime) "user_id"
    (query_request [("user_id", "1"); ("category_id", "2")]) <> None
  /\ exists r,
       Dict.get 1 (_records sample_state) = Some r
       /\ list_records (rt := ascii_runtime)
            (query_request [("user_id", "1"); ("category_id", "2")])
            sample_state =
            (Returned (JObj [("items", JArr [record_json r]);
                             ("total", JInt 1)]) 200, sample_state).
Proof.
  assert (G : args_get_int (rt := ascii_runtime) "user_id"
                (query_request [("user_id", "1"); ("category_id", "2")]) <> None)
    by discriminate.
  split; [exact G|].
  eexists. split; [reflexivity|].
  destruct (list_records_filters ascii_runtime
              (query_request [("user_id", "1"); ("category_id", "2")])
              sample_state) as [_ H].
  destruct (H (or_introl G)) as [items [Hitems Heq]].
  rewrite Heq, Hitems. reflexivity.
Defined.

(** ** Category names *)

Section ValuesOfUpdates.
Variables (V A : Type) (f : V -> A).
Implicit Types (d : Dict.t V) (k : Z) (v : V).

Lemma In_values_set x k v d :
  In x (map f (Dict.values (Dict.set k v d))) ->
  x = f v \/ In x (map f (Dict.values d)).
Proof.
  induction d as [|[k' v'] rest IH]; simpl.
  - intros [H|[]]; auto.
  - destruct (k' =? k); simpl; intros [H|H]; auto.
    destruct (IH H); auto.
Qed.

Lemma NoDup_values_set k v d :
  NoDup (map f (Dict.values d)) ->
  ~ In (f v) (map f (Dict.values d)) ->
  NoDup (map f (Dict.values (Dict.set k v d))).
Proof.
  induction d as [|[k' v'] rest IH]; simpl; intros Hnd Hnew.
  - repeat constructor. simpl. tauto.
  - inversion Hnd as [|? ? Hnotin Hrest]; subst.
    destruct (k' =? k); simpl; constructor; auto.
    intros Hin. apply In_values_set in Hin. destruct Hin as [Heq|Hin]; auto.
Qed.

Lemma NoDup_values_filter (p : Z * V -> bool) d :
  NoDup (map f (Dict.values d)) ->
  NoDup (map f (Dict.values (filter p d))).
Proof.
  induction d as [|kv rest IH]; simpl; intros Hnd; [constructor|].
  inversion Hnd as [|? ? Hnotin Hrest]; subst.
  destruct (p kv); simpl; [constructor|]; auto.
  intros Hin. apply Hnotin. unfold Dict.values in *.
  rewrite map_map in *. apply in_map_iff in Hin.
  destruct Hin as [x [Hx Hin]]. apply filter_In in Hin.
  apply in_map_iff. exists x. tauto.
Qed.
End ValuesOfUpdates.

Section CategoryNames.
Context {rt : PyRuntime}.

(** No two categories of the table have names that are equal once
    lowercased. *)
Definition names_unique (st : state) : Prop :=
  NoDup (map (fun c => str_lower (c_name c)) (Dict.values (_categories st))).

Lemma name_taken_In (name : string) (d : Dict.t category) :
  name_taken name d = true <->
  In (str_lower name) (map (fun c => str_lower (c_name c)) (Dict.values d)).
Proof.
  unfold name_taken. rewrite existsb_exists, in_map_iff.
  split; intros [c [H1 H2]]; exists c.
  - apply String.eqb_eq in H2. auto.
  - split; [assumption | now apply String.eqb_eq].
Qed.

Lemma create_category_names_unique req st :
  names_unique st -> names_unique (snd (create_category req st)).
Proof.
  intros Hu. unfold create_category, try_, respond.
  destruct (py_get "name" (json_or_empty req)) as [e|name]; [assumption|].
  destruct name; try assumption.
  destruct (negb (py_truthy (JStr s))); [assumption|].
  destruct (name_taken s (_categories st)) eqn:Htaken; [assumption|].
  unfold names_unique. cbn [snd _next_id with_categories with_counters _categories].
  apply NoDup_values_set with (f := fun c => str_lower (c_name c));
    [assumption|]. simpl.
  intros Hin. apply name_taken_In in Hin. congruence.
Qed.

Lemma delete_category_names_unique req st :
  names_unique st -> names_unique (snd (delete_category req st)).
Proof.
  intros Hu. unfold delete_category, try_, respond.
  destruct (category_id_source req) as [e|v]; [assumption|].
  destruct (as_int v) as [cat_id|]; [|assumption].
  destruct (negb (Dict.contains (int_val cat_id) (_categories st))); [assumption|].
  unfold names_unique. simpl. now apply NoDup_values_filter.
Qed.

(** The other handlers do not touch the categories. *)
Lemma dispatch_names_unique c st :
  names_unique st -> names_unique (snd (dispatch c st)).
Proof.
  intros Hu. destruct c; simpl;
    auto using create_category_names_unique, delete_category_names_unique.
  - unfold get_user. now destruct (Dict.get user_id (_users st)).
  - unfold delete_user.
    now destruct (negb (Dict.contains user_id (_users st))).
  - unfold create_user, try_, respond.
    destruct (py_get "name" (json_or_empty req)) as [e|name]; [assumption|].
    destruct name; try assumption.
    now destruct (negb (py_truthy (JStr s))).
  - unfold get_record. now destruct (Dict.get record_id (_records st)).
  - unfold delete_record.
    now destruct (negb (Dict.contains record_id (_records st))).
  - unfold create_record, try_, respond.
    destruct (py_get "user_id" (json_or_empty req)) as [|user_id];
      [assumption|].
    destruct (py_get "category_id" (json_or_empty req)) as [|category_id];
      [assumption|].
    destruct (py_get "amount" (json_or_empty req)) as [|amount]; [assumption|].
    destruct (py_get "created_at" (json_or_empty req)) as [|created_at];
      [assumption|].
    destruct (as_int user_id) as [uid|]; [|assumption].
    destruct (as_int category_id) as [cid|]; [|assumption].
    destruct (negb (is_number amount)); [assumption|].
    destruct (negb (Dict.contains (int_val uid) (_users st))); [assumption|].
    destruct (negb (Dict.contains (int_val cid) (_categories st))); [assumption|].
    destruct (check_created_at now created_at); [|assumption].
    simpl. now destruct (py_float amount).
  - unfold list_records.
    now destruct (args_get_int "user_id" req), (args_get_int "category_id" req).
Qed.

(** C3: that no two categories have names equal after lowercasing holds
    of the empty initial state and is kept by every request; and in a state
    of the service, a name whose lowercasing is that of the name of a stored
    category makes [create_category] answer 409 and store nothing. *)
Theorem category_names_stay_unique :
  names_unique initial_state
  /\ (forall c st, names_unique st -> names_unique (snd (dispatch c st)))
  /\ (forall st req name c,
        state_ok st = true ->
        names_unique st ->
        py_get "name" (json_or_empty req) = inr (JStr name) ->
        In c (Dict.values (_categories st)) ->
        str_lower name = str_lower (c_name c) ->
        create_category req st =
          (_error "category with this name already exists" 409, st)).
Proof.
  split; [constructor|]. split; [exact dispatch_names_unique|].
  intros st req name c Hok _ Hname Hin Hlower.
  apply state_ok_inv in Hok. destruct Hok as (_ & _ & _ & Hnonempty).
  assert (Hne : name <> "").
  { intros ->. apply (Hnonempty c Hin). apply str_lower_empty.
    rewrite <- Hlower. now apply str_lower_empty. }
  unfold create_category, try_, respond. rewrite Hname.
  assert (Htruthy : negb (py_truthy (JStr name)) = false).
  { simpl. destruct (String.eqb_spec name ""); [contradiction | reflexivity]. }
  rewrite Htruthy.
  assert (Htaken : name_taken name (_categories st) = true).
  { apply name_taken_In. rewrite Hlower.
    apply in_map with (f := fun c => str_lower (c_name c)). assumption. }
  now rewrite Htaken.
Qed.
End CategoryNames.

Lemma category_names_stay_unique_witness :
  state_ok sample_state = true
  /\ names_unique (rt := ascii_runtime) sample_state
  /\ create_category (rt := ascii_runtime)
       (json_request [("name", JStr "FOOD")]) sample_state =
       (_error "category with this name already exists" 409, sample_state).
Proof.
  assert (Hu : names_unique (rt := ascii_runtime) sample_state).
  { unfold names_unique. simpl. repeat constructor; simpl; intuition discriminate. }
  split; [reflexivity|]. split; [exact Hu|].
  destruct (@category_names_stay_unique ascii_runtime) as (_ & _ & H).
  apply (H sample_state (json_request [("name", JStr "FOOD")]) "FOOD"
           (mkCategory 1 "Food") eq_refl Hu eq_refl).
  - simpl. auto.
  - reflexivity.
Defined.

(** ** Creating a user *)

(** The empty string is a string, and [create_user] rejects it: [not name]
    holds of it. *)
Lemma create_user_rejects_empty_name :
  py_get "name" (json_or_empty (json_request [("name", JStr "")])) = inr (JStr "")
  /\ create_user (json_request [("name", JStr "")]) initial_state =
       (_error "field 'name' (string) is required" 400, initial_state).
Proof. split; reflexivity. Qed.

(** A body that is JSON, truthy and not an object has no [get]: the
    exception escapes, and the answer is neither 400 nor 201. *)
Lemma create_user_non_object_body_raises (st : state) (v : json) :
  py_truthy v = true ->
  (forall kv, v <> JObj kv) ->
  create_user (mkRequest [] (Read (Some v))) st = (Raised AttributeError, st).
Proof.
  intros Ht Hno. unfold create_user, try_, json_or_empty. simpl. rewrite Ht.
  destruct v; try reflexivity. now destruct (Hno kv).
Qed.

(** The values that Python takes for false; [x or {}] puts [{}] in their
    place. *)
Definition falsy (v : json) : Prop :=
  v = JNull \/ v = JBool false \/ v = JInt 0
  \/ (exists sign, v = JFloat (S754_zero sign))
  \/ v = JStr "" \/ v = JArr [] \/ v = JObj [].

(** The body of the request is read, and read as the object [kv]: it is
    that object, or it is absent or not JSON or falsy and [kv] is empty. *)
Inductive reads_as (req : request) : list (string * json) -> Prop :=
| reads_absent : get_json req = Read None -> reads_as req []
| reads_falsy v : get_json req = Read (Some v) -> falsy v -> reads_as req []
| reads_object kv : get_json req = Read (Some (JObj kv)) -> reads_as req kv.

Lemma reads_as_json_or_empty (req : request) (kv : list (string * json)) :
  reads_as req kv -> json_or_empty req = inr (JObj kv).
Proof.
  unfold json_or_empty. intros [Habsent | v Hv Hfalsy | kv' Hobj].
  - now rewrite Habsent.
  - rewrite Hv.
    destruct Hfalsy as [->|[->|[->|[[sign ->]|[->|[->| ->]]]]]]; reflexivity.
  - rewrite Hobj. now destruct kv'.
Qed.

(** C4, amended: for a request whose body is read as an object (the body
    is a JSON object, or it is absent, not JSON or falsy and counts as the
    empty object), [create_user] answers 400 exactly when [name] is missing,
    is not a string or is the empty string; for every non-empty string it
    mints the next user id, which is not in the table, stores the user under
    it as the last one and returns [{"id": id, "name": name}] with 201. *)
Theorem create_user_checks_name
    (req : request) (st : state) (kv : list (string * json)) :
  state_ok st = true ->
  reads_as req kv ->
  (assoc "name" kv = None
   \/ (exists v, assoc "name" kv = Some v /\ forall s, v <> JStr s)
   \/ assoc "name" kv = Some (JStr "") ->
   create_user req st =
     (Returned (JObj [("error", JStr "field 'name' (string) is required")]) 400,
      st))
  /\ (forall s, assoc "name" kv = Some (JStr s) -> s <> "" ->
       exists user_id,
         user_id = n_user (_counters st) + 1
         /\ Dict.contains user_id (_users st) = false
         /\ create_user req st =
              (Returned (JObj [("id", JInt user_id); ("name", JStr s)]) 201,
               mkState (_users st ++ [(user_id, mkUser user_id s)])
                       (_categories st) (_records st)
                       (mkCounters user_id (n_category (_counters st))
                                   (n_record (_counters st))))
         /\ Dict.get user_id (_users st ++ [(user_id, mkUser user_id s)])
            = Some (mkUser user_id s))
  /\ ((exists body st', create_user req st = (Returned body 400, st'))
      <-> (assoc "name" kv = None
           \/ (exists v, assoc "name" kv = Some v /\ forall s, v <> JStr s)
           \/ assoc "name" kv = Some (JStr ""))).
Proof.
  intros Hok Hreads. apply state_ok_inv in Hok. destruct Hok as (Hu & _).
  pose proof (table_inv_fresh Hu) as Hfresh.
  pose proof (reads_as_json_or_empty Hreads) as Hdata.
  assert (Hbad : assoc "name" kv = None
                 \/ (exists v, assoc "name" kv = Some v /\ forall s, v <> JStr s)
                 \/ assoc "name" kv = Some (JStr "") ->
                 create_user req st =
                   (Returned
                      (JObj [("error", JStr "field 'name' (string) is required")])
                      400, st)).
  { intros Hcase. unfold create_user, try_, respond, py_get. rewrite Hdata.
    destruct Hcase as [-> | [(v & -> & Hno) | ->]]; try reflexivity.
    destruct v; try reflexivity. now destruct (Hno s). }
  assert (Hgood : forall s, assoc "name" kv = Some (JStr s) -> s <> "" ->
                  create_user req st =
                    (Returned (JObj [("id", JInt (n_user (_counters st) + 1));
                                     ("name", JStr s)]) 201,
                     mkState (_users st ++ [(n_user (_counters st) + 1,
                                             mkUser (n_user (_counters st) + 1) s)])
                             (_categories st) (_records st)
                             (mkCounters (n_user (_counters st) + 1)
                                         (n_category (_counters st))
                                         (n_record (_counters st))))).
  { intros s Hs Hne. unfold create_user, try_, respond, py_get.
    rewrite Hdata, Hs. cbn [py_truthy].
    destruct (String.eqb_spec s ""); [contradiction|]. cbn [negb].
    unfold _next_id, with_users, with_counters, user_json. simpl.
    now rewrite DictFacts.set_fresh by assumption. }
  split; [exact Hbad|]. split.
  - intros s Hs Hne. eexists. split; [reflexivity|]. split; [exact Hfresh|].
    split; [now apply Hgood|].
    rewrite <- DictFacts.set_fresh by exact Hfresh.
    apply DictFacts.get_set_same.
  - split; [|intros Hcase; rewrite (Hbad Hcase); eauto].
    intros (body & st' & Hrun).
    destruct (assoc "name" kv) as [v|] eqn:Hv; [|now left].
    destruct v; try (right; left; eexists; split; [reflexivity|];
                     intros s'; discriminate).
    destruct (String.eqb_spec s ""); [right; right; congruence|].
    rewrite (Hgood s eq_refl n) in Hrun. discriminate.
Qed.

Lemma create_user_checks_name_witness :
  state_ok sample_state = true
  /\ reads_as (json_request [("name", JStr "cy")]) [("name", JStr "cy")]
  /\ create_user (json_request [("name", JStr "cy")]) sample_state =
       (Returned (JObj [("id", JInt 3); ("name", JStr "cy")]) 201,
        mkState (_users sample_state ++ [(3, mkUser 3 "cy")])
                (_categories sample_state) (_records sample_state)
                (mkCounters 3 2 3))
  /\ reads_as (mkRequest [] (Read (Some (JInt 0)))) []
  /\ create_user (mkRequest [] (Read (Some (JInt 0)))) sample_state =
       (Returned (JObj [("error", JStr "field 'name' (string) is required")]) 400,
        sample_state).
Proof.
  assert (Hobj : reads_as (json_request [("name", JStr "cy")])
                          [("name", JStr "cy")])
    by (apply reads_object; reflexivity).
  assert (Hzero : reads_as (mkRequest [] (Read (Some (JInt 0)))) []).
  { apply reads_falsy with (v := JInt 0); [reflexivity|].
    right. right. left. reflexivity. }
  split; [reflexivity|]. split; [exact Hobj|]. split; [|split; [exact Hzero|]].
  - destruct (@create_user_checks_name (json_request [("name", JStr "cy")])
                sample_state _ eq_refl Hobj) as (_ & Hgood & _).
    destruct (Hgood "cy" eq_refl ltac:(discriminate)) as (uid & -> & _ & Hrun & _).
    exact Hrun.
  - destruct (@create_user_checks_name (mkRequest [] (Read (Some (JInt 0))))
                sample_state _ eq_refl Hzero) as (Hbad & _).
    apply Hbad. left. reflexivity.
Defined.

(** ** The default timestamp *)

Module Iso8601Facts.
Import Iso8601.

Lemma append_assoc (a b c : string) : ((a ++ b) ++ c)%string = (a ++ b ++ c)%string.
Proof. induction a as [|x a IH]; simpl; [reflexivity | now rewrite IH]. Qed.

Lemma digit_char_digit (d : Z) :
  0 <= d < 10 ->
  is_digit (digit_char d) = true /\ digit_val (digit_char d) = d.
Proof.
  intros Hd.
  assert (H : d = 0 \/ d = 1 \/ d = 2 \/ d = 3 \/ d = 4 \/ d = 5 \/ d = 6
              \/ d = 7 \/ d = 8 \/ d = 9) by lia.
  repeat (destruct H as [->|H]; [split; reflexivity|]).
  subst. split; reflexivity.
Qed.

(** Reading back [w] padded digits gives the number, modulo [10 ^ w]. *)
Lemma take_num_zpad (w : nat) (n acc : Z) (rest : string) :
  0 <= n ->
  take_num w acc (zpad w n ++ rest)
  = Some (acc * 10 ^ Z.of_nat w + n mod 10 ^ Z.of_nat w, rest).
Proof.
  intros Hn. revert acc.
  induction w as [|w IH]; intros acc.
  - simpl. rewrite Z.mod_1_r. do 2 f_equal. lia.
  - cbn [zpad take_num append].
    assert (Hpow : 0 < 10 ^ Z.of_nat w) by (apply Z.pow_pos_nonneg; lia).
    assert (Hd : 0 <= (n / 10 ^ Z.of_nat w) mod 10 < 10)
      by (apply Z.mod_pos_bound; lia).
    destruct (digit_char_digit Hd) as [Hdig Hval].
    rewrite Hdig, Hval, IH. do 2 f_equal.
    rewrite Nat2Z.inj_succ, Z.pow_succ_r by lia.
    rewrite (Z.mul_comm 10 (10 ^ Z.of_nat w)).
    rewrite (Z.rem_mul_r n (10 ^ Z.of_nat w) 10) by lia.
    ring.
Qed.

Lemma take_num_zpad_exact (w : nat) (n : Z) (rest : string) :
  0 <= n < 10 ^ Z.of_nat w ->
  take_num w 0 (zpad w n ++ rest) = Some (n, rest).
Proof.
  intros Hn. rewrite take_num_zpad by lia.
  now rewrite Z.mod_small by lia.
Qed.

Lemma take_year (n : Z) (rest : string) :
  0 <= n <= 9999 -> take_num 4 0 (zpad 4 n ++ rest) = Some (n, rest).
Proof.
  intros Hn. apply take_num_zpad_exact. change (10 ^ Z.of_nat 4) with 10000. lia.
Qed.

Lemma take_field (n : Z) (rest : string) :
  0 <= n <= 99 -> take_num 2 0 (zpad 2 n ++ rest) = Some (n, rest).
Proof.
  intros Hn. apply take_num_zpad_exact. change (10 ^ Z.of_nat 2) with 100. lia.
Qed.

Lemma skip_digits_zpad (w : nat) (n : Z) :
  0 <= n -> skip_digits (zpad w n ++ "Z") = "Z"%string.
Proof.
  intros Hn. induction w as [|w IH]; [reflexivity|].
  cbn [zpad append skip_digits].
  assert (Hpow : 0 < 10 ^ Z.of_nat w) by (apply Z.pow_pos_nonneg; lia).
  assert (Hd : 0 <= (n / 10 ^ Z.of_nat w) mod 10 < 10)
    by (apply Z.mod_pos_bound; lia).
  destruct (digit_char_digit Hd) as [Hdig _]. now rewrite Hdig.
Qed.

Lemma fraction_zpad (w : nat) (n : Z) :
  0 <= n -> fraction_then_zone ("." ++ zpad (S w) n ++ "Z") = true.
Proof.
  intros Hn.
  change (zpad (S w) n)
    with (String (digit_char ((n / 10 ^ Z.of_nat w) mod 10)) (zpad w n)).
  cbn [append fraction_then_zone].
  assert (Hpow : 0 < 10 ^ Z.of_nat w) by (apply Z.pow_pos_nonneg; lia).
  assert (Hd : 0 <= (n / 10 ^ Z.of_nat w) mod 10 < 10)
    by (apply Z.mod_pos_bound; lia).
  destruct (digit_char_digit Hd) as [Hdig _]. rewrite Hdig.
  now rewrite skip_digits_zpad.
Qed.

Lemma ends_with_append (s : string) (c : ascii) :
  ends_with c (s ++ String c "") = true.
Proof.
  induction s as [|x s IH]; simpl; [apply Ascii.eqb_refl|].
  destruct (s ++ String c "")%string eqn:E; [|assumption].
  destruct s; discriminate.
Qed.

Lemma in_range_spec (lo n hi : Z) : in_range lo n hi = true <-> lo <= n <= hi.
Proof. unfold in_range. rewrite andb_true_iff, !Z.leb_le. tauto. Qed.

(** Step over a separator that is there. *)
Ltac separator :=
  cbn [bind expect append]; rewrite Ascii.eqb_refl; cbn [bind].

(** The clock's timestamp with [Z] appended is an ISO-8601 timestamp. *)
Lemma isoformat_Z_parses (t : datetime) :
  valid_datetime t = true -> parses (isoformat t ++ "Z") = true.
Proof.
  unfold valid_datetime. rewrite !andb_true_iff, !in_range_spec.
  intros [[[[[[Hy Hmo] Hd] Hh] Hmi] Hs] Hus].
  assert (Hdm : days_in_month (year t) (month t) <= 31).
  { unfold days_in_month.
    destruct (month t =? 2); [destruct (leap_year (year t)); lia|].
    destruct ((month t =? 4) || (month t =? 6) || (month t =? 9)
              || (month t =? 11)); lia. }
  unfold isoformat, parses. rewrite !append_assoc.
  rewrite take_year by lia. separator.
  rewrite take_field by lia. separator.
  rewrite take_field by lia. separator.
  rewrite take_field by lia. separator.
  rewrite take_field by lia. separator.
  rewrite take_field by lia. cbn [bind].
  rewrite !(proj2 (in_range_spec _ _ _)) by lia. cbn [andb].
  destruct (microsecond t =? 0); [reflexivity|].
  apply (fraction_zpad 5). lia.
Qed.
End Iso8601Facts.

(** ** Creating a record *)

(** The body names a stored user and a stored category, by values that pass
    [isinstance(_, int)], and carries an amount that [float] converts. *)
Definition well_referenced
    (st : state) (data : exn + json) (uid cid : pyint) (amount_f : spec_float)
  : Prop :=
  py_get "user_id" data = inr (pyint_json uid)
  /\ Dict.contains (int_val uid) (_users st) = true
  /\ py_get "category_id" data = inr (pyint_json cid)
  /\ Dict.contains (int_val cid) (_categories st) = true
  /\ exists amount, py_get "amount" data = inr amount /\ py_float amount = inr amount_f.

(** The record that a successful [create_record] stores, and the state it
    leaves. *)
Definition minted_record
    (st : state) (uid cid : pyint) (stamp : string) (amount_f : spec_float) : record :=
  mkRecord (n_record (_counters st) + 1) uid cid stamp amount_f.

Definition with_new_record (st : state) (r : record) : state :=
  mkState (_users st) (_categories st)
          (Dict.set (r_id r) r (_records st))
          (set_counter Krecord (r_id r) (_counters st)).

Section CreateRecord.
Context {rt : PyRuntime}.

Lemma as_int_pyint_json (i : pyint) : as_int (pyint_json i) = Some i.
Proof. now destruct i. Qed.

Lemma py_float_is_number (v : json) (f : spec_float) :
  py_float v = inr f -> is_number v = true.
Proof. destruct v; simpl; (reflexivity || discriminate). Qed.

(** Past the checks, the record is minted, stored and returned. *)
Lemma create_record_succeeds now req st uid cid amount_f created_at stamp :
  well_referenced st (json_or_empty req) uid cid amount_f ->
  py_get "created_at" (json_or_empty req) = inr created_at ->
  check_created_at now created_at = Some stamp ->
  create_record now req st =
    (Returned (record_json (minted_record st uid cid stamp amount_f)) 201,
     with_new_record st (minted_record st uid cid stamp amount_f)).
Proof.
  intros (Hu & Huin & Hc & Hcin & amount & Ha & Hf) Hcreated Hstamp.
  unfold create_record, try_, respond.
  rewrite Hu, Hc, Ha, Hcreated, !as_int_pyint_json.
  rewrite (py_float_is_number _ Hf). simpl.
  rewrite Huin, Hcin, Hstamp. simpl. rewrite Hf. reflexivity.
Qed.

(** The id is taken before the amount is converted: an integer amount
    beyond the range of binary64 raises [OverflowError] with the record
    counter already moved and no record stored.  The answer is then a 500. *)
Lemma create_record_overflow now req st uid cid z created_at stamp :
  py_get "user_id" (json_or_empty req) = inr (pyint_json uid) ->
  Dict.contains (int_val uid) (_users st) = true ->
  py_get "category_id" (json_or_empty req) = inr (pyint_json cid) ->
  Dict.contains (int_val cid) (_categories st) = true ->
  py_get "amount" (json_or_empty req) = inr (JInt z) ->
  float_of_Z z = inl OverflowError ->
  py_get "created_at" (json_or_empty req) = inr created_at ->
  check_created_at now created_at = Some stamp ->
  create_record now req st =
    (Raised OverflowError,
     with_counters (set_counter Krecord (n_record (_counters st) + 1) (_counters st))
                   st).
Proof.
  intros Hu Huin Hc Hcin Ha Hf Hcreated Hstamp.
  unfold create_record, try_, respond.
  rewrite Hu, Hc, Ha, Hcreated, !as_int_pyint_json. simpl.
  rewrite Huin, Hcin, Hstamp. simpl. rewrite Hf. reflexivity.
Qed.

(** C6: with a stored user and a stored category, [create_record] with a
    [created_at] that the parser takes stores a record with that very string
    and returns it in the body, and [get_record] then returns the same body;
    with [created_at] left out, the stored and returned [created_at] ends in
    [Z] and is an ISO-8601 timestamp. *)
Theorem created_at_round_trip now req st uid cid amount_f :
  well_referenced st (json_or_empty req) uid cid amount_f ->
  (forall s,
     py_get "created_at" (json_or_empty req) = inr (JStr s) ->
     fromisoformat (replace_Z s) = true ->
     exists rec_id st',
       create_record now req st =
         (Returned
            (JObj [("id", JInt rec_id);
                   ("user_id", pyint_json uid);
                   ("category_id", pyint_json cid);
                   ("created_at", JStr s);
                   ("amount", JFloat amount_f)]) 201, st')
       /\ Dict.get rec_id (_records st') = Some (mkRecord rec_id uid cid s amount_f)
       /\ get_record rec_id st' =
            (Returned
               (JObj [("id", JInt rec_id);
                      ("user_id", pyint_json uid);
                      ("category_id", pyint_json cid);
                      ("created_at", JStr s);
                      ("amount", JFloat amount_f)]) 200, st'))
  /\ (py_get "created_at" (json_or_empty req) = inr JNull ->
      exists rec_id st' stamp,
        create_record now req st =
          (Returned
             (JObj [("id", JInt rec_id);
                    ("user_id", pyint_json uid);
                    ("category_id", pyint_json cid);
                    ("created_at", JStr stamp);
                    ("amount", JFloat amount_f)]) 201, st')
        /\ stamp = (isoformat now ++ "Z")%string
        /\ Dict.get rec_id (_records st')
           = Some (mkRecord rec_id uid cid stamp amount_f)
        /\ get_record rec_id st' =
             (Returned
                (JObj [("id", JInt rec_id);
                       ("user_id", pyint_json uid);
                       ("category_id", pyint_json cid);
                       ("created_at", JStr stamp);
                       ("amount", JFloat amount_f)]) 200, st')
        /\ Iso8601.ends_with "Z" stamp = true
        /\ (Iso8601.valid_datetime now = true -> Iso8601.parses stamp = true)).
Proof.
  intros Href.
  assert (Hstored : forall stamp,
             Dict.get (n_record (_counters st) + 1)
               (_records (with_new_record st
                            (minted_record st uid cid stamp amount_f)))
             = Some (mkRecord (n_record (_counters st) + 1) uid cid stamp amount_f)).
  { intros stamp. apply DictFacts.get_set_same. }
  split.
  - intros s Hcreated Hparse.
    exists (n_record (_counters st) + 1).
    exists (with_new_record st (minted_record st uid cid s amount_f)).
    split; [|split; [apply Hstored|]].
    + rewrite (create_record_succeeds now req (created_at := JStr s) (stamp := s) Href
                 Hcreated); [reflexivity|].
      cbn [check_created_at]. now rewrite Hparse.
    + unfold get_record. now rewrite Hstored.
  - intros Hcreated.
    exists (n_record (_counters st) + 1).
    exists (with_new_record st
              (minted_record st uid cid (isoformat now ++ "Z") amount_f)).
    exists (isoformat now ++ "Z")%string.
    split; [|split; [reflexivity|split; [apply Hstored|split; [|split]]]].
    + now rewrite (create_record_succeeds now req (created_at := JNull)
                     (stamp := (isoformat now ++ "Z")%string) Href Hcreated eq_refl).
    + unfold get_record. now rewrite Hstored.
    + apply Iso8601Facts.ends_with_append.
    + apply Iso8601Facts.isoformat_Z_parses.
Qed.
End CreateRecord.

Example create_record_huge_amount :
  create_record (rt := ascii_runtime) sample_now
    (json_request [("user_id", JInt 1); ("category_id", JInt 1);
                   ("amount", JInt (10 ^ 400))]) sample_state
  = (Raised OverflowError,
     mkState (_users sample_state) (_categories sample_state)
             (_records sample_state) (mkCounters 2 2 4)).
Proof. reflexivity. Qed.

Lemma sample_well_referenced (created_at : list (string * json)) :
  well_referenced sample_state
    (inr (JObj ([("user_id", JInt 2); ("category_id", JInt 1); ("amount", JInt 12)]
                ++ created_at)))
    (PInt 2) (PInt 1) (S754_finite false 6755399441055744 (-49)).
Proof.
  repeat split. exists (JInt 12). split; reflexivity.
Qed.

Lemma created_at_round_trip_witness :
  (exists st',
     create_record (rt := ascii_runtime) sample_now
       (json_request [("user_id", JInt 2); ("category_id", JInt 1);
                      ("amount", JInt 12);
                      ("created_at", JStr "2025-10-13T10:00:00+02:00")])
       sample_state
     = (Returned
          (JObj [("id", JInt 4); ("user_id", JInt 2); ("category_id", JInt 1);
                 ("created_at", JStr "2025-10-13T10:00:00+02:00");
                 ("amount", JFloat (S754_finite false 6755399441055744 (-49)))])
          201, st')
     /\ get_record 4 st'
        = (Returned
             (JObj [("id", JInt 4); ("user_id", JInt 2); ("category_id", JInt 1);
                    ("created_at", JStr "2025-10-13T10:00:00+02:00");
                    ("amount", JFloat (S754_finite false 6755399441055744 (-49)))])
             200, st'))
  /\ (exists st',
        create_record (rt := ascii_runtime) sample_now
          (json_request [("user_id", JInt 2); ("category_id", JInt 1);
                         ("amount", JInt 12)])
          sample_state
        = (Returned
             (JObj [("id", JInt 4); ("user_id", JInt 2); ("category_id", JInt 1);
                    ("created_at", JStr "2025-10-13T10:00:00Z");
                    ("amount", JFloat (S754_finite false 6755399441055744 (-49)))])
             201, st')
        /\ Iso8601.parses "2025-10-13T10:00:00Z" = true).
Proof.
  split.
  - destruct (@created_at_round_trip ascii_runtime sample_now
                (json_request [("user_id", JInt 2); ("category_id", JInt 1);
                               ("amount", JInt 12);
                               ("created_at", JStr "2025-10-13T10:00:00+02:00")])
                sample_state (PInt 2) (PInt 1) _
                (sample_well_referenced
                   [("created_at", JStr "2025-10-13T10:00:00+02:00")]))
      as [Hexplicit _].
    destruct (Hexplicit "2025-10-13T10:00:00+02:00"%string eq_refl eq_refl)
      as (rec_id & st' & Hrun & Hstored & Hget).
    assert (Hid : rec_id = 4).
    { pose proof Hrun as Hrun'. vm_compute in Hrun'. now injection Hrun' as <- _. }
    subst rec_id. exists st'. split; [exact Hrun | exact Hget].
  - destruct (@created_at_round_trip ascii_runtime sample_now
                (json_request [("user_id", JInt 2); ("category_id", JInt 1);
                               ("amount", JInt 12)])
                sample_state (PInt 2) (PInt 1) _ (sample_well_referenced []))
      as [_ Hdefault].
    destruct (Hdefault eq_refl)
      as (rec_id & st' & stamp & Hrun & Hstamp & _ & _ & _ & Hparses).
    assert (Hid : rec_id = 4).
    { pose proof Hrun as Hrun'. vm_compute in Hrun'. now injection Hrun' as <- _. }
    subst rec_id stamp. exists st'. split; [exact Hrun | exact (Hparses eq_refl)].
Defined.

(** ** Deleting a category *)

(** The records of a category, by Python's [==]. *)
Definition filed_under (cat_id : Z) (r : record) : bool :=
  int_val (r_category_id r) =? cat_id.

(** What the deletion of a resolved id comes to: 404 and no change for an
    id that is not a key of the table; else the category is removed, with
    exactly the records filed under it, and their number is reported.  The
    id is echoed as it came. *)
Definition category_removed (cat_id : pyint) (st : state) : result * state :=
  if Dict.contains (int_val cat_id) (_categories st) then
    (Returned
       (JObj [("status", JStr "deleted");
              ("category_id", pyint_json cat_id);
              ("deleted_records",
               JInt (Z.of_nat (List.length
                                 (filter (filed_under (int_val cat_id))
                                         (Dict.values (_records st))))))])
       200,
     mkState (_users st)
             (Dict.pop (int_val cat_id) (_categories st))
             (filter (fun kv => negb (filed_under (int_val cat_id) (snd kv)))
                     (_records st))
             (_counters st))
  else
    (_error ("category " ++ str_of_pyint cat_id ++ " not found") 404, st).

Section DeleteCategory.
Context {rt : PyRuntime}.

Lemma delete_category_resolved req st v cat_id :
  state_ok st = true ->
  category_id_source req = inr v ->
  as_int v = Some cat_id ->
  delete_category req st = category_removed cat_id st.
Proof.
  intros Hok Hsrc Hint. apply state_ok_inv in Hok.
  destruct Hok as (_ & _ & [Hwf _] & _).
  unfold delete_category, category_removed, try_. rewrite Hsrc, Hint.
  destruct (Dict.contains (int_val cat_id) (_categories st)); simpl;
    [|reflexivity].
  rewrite DictFacts.cascade_filter, DictFacts.length_to_delete by assumption.
  reflexivity.
Qed.

(** X17: [delete_category] with an integer id.  A query parameter that
    converts to an integer decides alone: the body is not read, whatever it
    is.  Without one, the id is what the body binds to [id].  For an integer
    id that is not in the categories table the answer is 404 and nothing
    changes; for one that is, the category is removed with exactly the
    records whose [category_id] equals the id, the others keep their order,
    and the response reports the id and the number of records removed.  A
    body id that is neither an integer nor a boolean is answered with 400
    and nothing changes. *)
Theorem delete_category_by_integer (req : request) (st : state) (z : Z) :
  state_ok st = true ->
  (args_get_int "id" req = Some z
   \/ (args_get_int "id" req = None
       /\ py_get "id" (json_or_empty req) = inr (JInt z))) ->
  (forall body,
     args_get_int "id" req = Some z ->
     delete_category (mkRequest (args req) body) st = delete_category req st)
  /\ (Dict.contains z (_categories st) = false ->
      delete_category req st =
        (_error ("category " ++ str_of_Z z ++ " not found") 404, st))
  /\ (Dict.contains z (_categories st) = true ->
      delete_category req st =
        (Returned
           (JObj [("status", JStr "deleted");
                  ("category_id", JInt z);
                  ("deleted_records",
                   JInt (Z.of_nat (List.length
                                     (filter (filed_under z)
                                             (Dict.values (_records st))))))])
           200,
         mkState (_users st)
                 (Dict.pop z (_categories st))
                 (filter (fun kv => negb (filed_under z (snd kv))) (_records st))
                 (_counters st)))
  /\ (forall (req' : request) (v : json),
        args_get_int "id" req' = None ->
        py_get "id" (json_or_empty req') = inr v ->
        (forall i, v <> JInt i) -> (forall b, v <> JBool b) ->
        delete_category req' st =
          (_error
             "category id is required (query param ?id= or JSON {'id': number})"
             400, st)).
Proof.
  intros Hok Hid.
  assert (Hsrc : category_id_source req = inr (JInt z)).
  { unfold category_id_source. destruct Hid as [-> | [-> Hbody]]; auto. }
  pose proof (@delete_category_resolved req st (JInt z) (PInt z) Hok Hsrc eq_refl)
    as Hrun.
  split; [|split; [|split]].
  - intros body Hq.
    assert (Hsrc' : category_id_source (mkRequest (args req) body) = inr (JInt z)).
    { unfold category_id_source, args_get_int in *. simpl. now rewrite Hq. }
    rewrite Hrun.
    exact (@delete_category_resolved _ st (JInt z) (PInt z) Hok Hsrc' eq_refl).
  - intros Hno. rewrite Hrun. unfold category_removed. simpl. now rewrite Hno.
  - intros Hin. rewrite Hrun. unfold category_removed. simpl. now rewrite Hin.
  - intros req' v Hq Hbody Hnoint Hnobool.
    unfold delete_category, try_, respond, category_id_source.
    rewrite Hq, Hbody.
    destruct v; try reflexivity; [now destruct (Hnobool b) | now destruct (Hnoint z0)].
Qed.
End DeleteCategory.

(** C7: with no query parameter and the body [{"id": true}], which
    supplies no integer, the answer is not the 400 of a missing id: the
    boolean passes [isinstance(cat_id, int)], category 1 is deleted with its
    two records and the response echoes [true].  The body [{"id": false}]
    gets past the check as well and is looked up as category 0. *)
Lemma delete_category_takes_true :
  args_get_int (rt := ascii_runtime) "id" (json_request [("id", JBool true)]) = None
  /\ py_get "id" (json_or_empty (json_request [("id", JBool true)]))
     = inr (JBool true)
  /\ fst (delete_category (rt := ascii_runtime)
            (json_request [("id", JBool true)]) sample_state)
     = Returned (JObj [("status", JStr "deleted");
                       ("category_id", JBool true);
                       ("deleted_records", JInt 2)]) 200
  /\ Dict.keys (_categories
       (snd (delete_category (rt := ascii_runtime)
               (json_request [("id", JBool true)]) sample_state))) = [2]
  /\ delete_category (rt := ascii_runtime)
       (json_request [("id", JBool false)]) sample_state
     = (_error "category False not found" 404, sample_state).
Proof. repeat split. Qed.

Lemma delete_category_by_integer_witness :
  state_ok sample_state = true
  /\ args_get_int (rt := ascii_runtime) "id"
       (mkRequest [("id", "2")] (Read (Some (JObj [("id", JInt 1)])))) = Some 2
  /\ delete_category (rt := ascii_runtime)
       (mkRequest [("id", "2")] ReadRaises) sample_state
     = delete_category (rt := ascii_runtime)
         (mkRequest [("id", "2")] (Read (Some (JObj [("id", JInt 1)]))))
         sample_state
  /\ fst (delete_category (rt := ascii_runtime)
            (mkRequest [("id", "2")] (Read (Some (JObj [("id", JInt 1)]))))
            sample_state)
     = Returned (JObj [("status", JStr "deleted");
                       ("category_id", JInt 2);
                       ("deleted_records", JInt 1)]) 200.
Proof.
  split; [reflexivity|]. split; [reflexivity|].
  destruct (@delete_category_by_integer ascii_runtime
              (mkRequest [("id", "2")] (Read (Some (JObj [("id", JInt 1)]))))
              sample_state 2 eq_refl (or_introl eq_refl))
    as (Hquery & _ & Hthere & _).
  split.
  - exact (Hquery ReadRaises eq_refl).
  - rewrite (Hthere eq_refl). reflexivity.
Defined.

(** ** Booleans where integers are asked for *)

(** C9: the JSON booleans pass the integer checks.  [create_record] with
    [user_id] or [category_id] equal to [true] gets past the validation and
    looks up id 1: with user (category) 1 stored, and the other fields in
    order, the record is created, with the boolean stored in it and counted
    among the records of user (category) 1.  [delete_category] with the body
    [{"id": true}] and no query parameter does to category 1 what it does
    for the id 1, with 404 when there is no category 1, and never answers
    400. *)
Theorem booleans_pass_integer_checks
    (rt : PyRuntime) (now : datetime) (req : request) (st : state)
    (other : pyint) (amount : json) (amount_f : spec_float) :
  state_ok st = true ->
  (py_get "user_id" (json_or_empty req) = inr (JBool true) ->
   Dict.contains 1 (_users st) = true ->
   py_get "category_id" (json_or_empty req) = inr (pyint_json other) ->
   Dict.contains (int_val other) (_categories st) = true ->
   py_get "amount" (json_or_empty req) = inr amount ->
   py_float amount = inr amount_f ->
   py_get "created_at" (json_or_empty req) = inr JNull ->
   exists r,
     create_record now req st = (Returned (record_json r) 201, with_new_record st r)
     /\ r_user_id r = PBool true
     /\ owned_by 1 r = true)
  /\ (py_get "category_id" (json_or_empty req) = inr (JBool true) ->
      Dict.contains 1 (_categories st) = true ->
      py_get "user_id" (json_or_empty req) = inr (pyint_json other) ->
      Dict.contains (int_val other) (_users st) = true ->
      py_get "amount" (json_or_empty req) = inr amount ->
      py_float amount = inr amount_f ->
      py_get "created_at" (json_or_empty req) = inr JNull ->
      exists r,
        create_record now req st = (Returned (record_json r) 201, with_new_record st r)
        /\ r_category_id r = PBool true
        /\ filed_under 1 r = true)
  /\ (args_get_int "id" req = None ->
      py_get "id" (json_or_empty req) = inr (JBool true) ->
      delete_category req st = category_removed (PBool true) st
      /\ snd (category_removed (PBool true) st) = snd (category_removed (PInt 1) st)
      /\ (Dict.contains 1 (_categories st) = true ->
          exists body st',
            delete_category req st = (Returned body 200, st')
            /\ Dict.contains 1 (_categories st') = false)
      /\ (Dict.contains 1 (_categories st) = false ->
          delete_category req st = (_error "category True not found" 404, st))).
Proof.
  intros Hok. split; [|split].
  - intros Hu Huin Hc Hcin Ha Hf Hcreated.
    exists (minted_record st (PBool true) other (isoformat now ++ "Z") amount_f).
    split; [|split; reflexivity].
    apply create_record_succeeds with (created_at := JNull);
      [|assumption|reflexivity].
    repeat (split; [assumption|]). eauto.
  - intros Hc Hcin Hu Huin Ha Hf Hcreated.
    exists (minted_record st other (PBool true) (isoformat now ++ "Z") amount_f).
    split; [|split; reflexivity].
    apply create_record_succeeds with (created_at := JNull);
      [|assumption|reflexivity].
    repeat (split; [assumption|]). eauto.
  - intros Hq Hbody.
    assert (Hsrc : category_id_source req = inr (JBool true)).
    { unfold category_id_source. now rewrite Hq. }
    rewrite (@delete_category_resolved rt req st (JBool true) (PBool true)
               Hok Hsrc eq_refl).
    split; [reflexivity|]. unfold category_removed. simpl.
    split; [now destruct (Dict.contains 1 (_categories st))|].
    split; intros ->; [|reflexivity].
    do 2 eexists. split; [reflexivity|]. apply DictFacts.contains_pop_same.
Qed.

Lemma booleans_pass_integer_checks_witness :
  state_ok sample_state = true
  /\ (exists r,
        create_record (rt := ascii_runtime) sample_now
          (json_request [("user_id", JBool true); ("category_id", JBool true);
                         ("amount", JInt 5)]) sample_state
        = (Returned (record_json r) 201, with_new_record sample_state r)
        /\ r_user_id r = PBool true
        /\ owned_by 1 r = true)
  /\ exists body st',
       delete_category (rt := ascii_runtime)
         (json_request [("id", JBool true)]) sample_state
       = (Returned body 200, st')
       /\ Dict.contains 1 (_categories st') = false.
Proof.
  split; [reflexivity|]. split.
  - destruct (@booleans_pass_integer_checks ascii_runtime sample_now
                (json_request [("user_id", JBool true); ("category_id", JBool true);
                               ("amount", JInt 5)])
                sample_state (PBool true) (JInt 5)
                (S754_finite false 5629499534213120 (-50)) eq_refl)
      as (Huser & _ & _).
    exact (Huser eq_refl eq_refl eq_refl eq_refl eq_refl eq_refl eq_refl).
  - destruct (@booleans_pass_integer_checks ascii_runtime sample_now
                (json_request [("id", JBool true)])
                sample_state (PBool true) (JInt 5)
                (S754_finite false 5629499534213120 (-50)) eq_refl)
      as (_ & _ & Hdelete).
    destruct (Hdelete eq_refl eq_refl) as (_ & _ & Hthere & _).
    exact (Hthere eq_refl).
Defined.

(** ** Identifiers *)

Definition kind_eqb (a b : kind) : bool :=
  match a, b with
  | Kuser, Kuser | Kcategory, Kcategory | Krecord, Krecord => true
  | _, _ => false
  end.

(** The kind of entity that a request asks to create. *)
Definition creates (c : call) : option kind :=
  match c with
  | CreateUser _ => Some Kuser
  | CreateCategory _ => Some Kcategory
  | CreateRecord _ _ => Some Krecord
  | _ => None
  end.

(** The id in the body of a response. *)
Definition response_id (body : json) : option Z :=
  match py_get "id" (inr body) with
  | inr (JInt i) => Some i
  | _ => None
  end.

(** The id of kind [k] that a request minted: the one its 201 carries. *)
Definition minted (k : kind) (o : call * result) : option Z :=
  match creates (fst o), snd o with
  | Some k', Returned body status =>
      if kind_eqb k k' && (status =? 201) then response_id body else None
  | _, _ => None
  end.

(** The ids of kind [k] minted along a log, oldest first. *)
Fixpoint minted_ids (k : kind) (log : list (call * result)) : list Z :=
  match log with
  | [] => []
  | o :: rest =>
      match minted k o with
      | Some i => i :: minted_ids k rest
      | None => minted_ids k rest
      end
  end.

(** The keys of the table of a kind. *)
Definition table_keys (k : kind) (st : state) : list Z :=
  match k with
  | Kuser => Dict.keys (_users st)
  | Kcategory => Dict.keys (_categories st)
  | Krecord => Dict.keys (_records st)
  end.

Section Identifiers.
Context {rt : PyRuntime}.

(** Run the checks of a handler down to its leaves. *)
Ltac handler_cases :=
  repeat match goal with
         | |- context [match ?x with _ => _ end] => destruct x eqn:?
         | |- context [if ?b then _ else _] => destruct b eqn:?
         end.

(** No request moves a counter down. *)
Lemma counters_grow (k : kind) (c : call) (st : state) :
  counter k (_counters st) <= counter k (_counters (snd (dispatch c st))).
Proof.
  destruct c; simpl;
    unfold health, index, respond, get_user, delete_user, create_user,
           list_users, list_categories, create_category, delete_category,
           get_record, delete_record, create_record, list_records, try_,
           _next_id;
    simpl; handler_cases; simpl; try lia; destruct k; simpl; lia.
Qed.

(** Run the checks of a handler applied in [H] down to its leaves. *)
Ltac leaves H :=
  repeat match type of H with
         | context [match ?x with _ => _ end] => destruct x eqn:?
         | context [if ?b then _ else _] => destruct b eqn:?
         end.

(** A creation either answers 201 with the successor of the counter, which
    is the counter from then on, or does not answer 201. *)
Lemma create_outcome (k : kind) (c : call) (st st' : state) (r : result) :
  creates c = Some k ->
  dispatch c st = (r, st') ->
  (exists body,
     r = Returned body 201
     /\ response_id body = Some (counter k (_counters st) + 1)
     /\ counter k (_counters st') = counter k (_counters st) + 1)
  \/ (forall body, r <> Returned body 201).
Proof.
  intros Hk Hrun.
  destruct c; simpl in Hk; try discriminate; injection Hk as <-;
    simpl in Hrun;
    unfold create_user, create_category, create_record, try_, respond, _error,
           _next_id in Hrun;
    simpl in Hrun; leaves Hrun; simpl in Hrun;
    injection Hrun as <- <-;
    try (right; intros body'; discriminate);
    (left; eexists; split; [reflexivity | split; reflexivity]).
Qed.

(** A minted id is the successor of the counter before the request and is
    the counter after it. *)
Lemma minted_next (k : kind) (c : call) (st : state) (i : Z) :
  minted k (c, fst (dispatch c st)) = Some i ->
  i = counter k (_counters st) + 1
  /\ counter k (_counters (snd (dispatch c st))) = i.
Proof.
  unfold minted. cbn [fst snd].
  destruct (creates c) as [k'|] eqn:Hc; [|discriminate].
  destruct (dispatch c st) as [r st'] eqn:Hrun. cbn [fst snd].
  destruct r as [body status|e]; [|discriminate].
  destruct (kind_eqb k k') eqn:Hk; [|discriminate].
  destruct (Z.eqb_spec status 201) as [->|]; [|discriminate]. simpl.
  assert (k' = k) by (destruct k, k'; (reflexivity || discriminate)). subst k'.
  destruct (create_outcome _ _ Hc Hrun) as [(body' & Hb & Hid & Hcnt)|Hno].
  - injection Hb as <-. rewrite Hid. intros [= <-]. split; [reflexivity|].
    assumption.
  - now destruct (Hno body).
Qed.

Lemma minted_ids_above (k : kind) (cs : list call) (st : state) :
  Forall (fun i => counter k (_counters st) < i) (minted_ids k (outcomes cs st))
  /\ StronglySorted Z.lt (minted_ids k (outcomes cs st)).
Proof.
  revert st. induction cs as [|c rest IH]; intros st; simpl.
  - split; constructor.
  - destruct (IH (snd (dispatch c st))) as [Habove Hsorted].
    pose proof (counters_grow k c st) as Hgrow.
    destruct (minted k (c, fst (dispatch c st))) as [i|] eqn:Hm.
    + destruct (minted_next _ _ _ Hm) as [Hi Hafter]. split.
      * constructor; [lia|].
        eapply Forall_impl; [|exact Habove]. simpl. intros j Hj. lia.
      * constructor; [assumption|].
        eapply Forall_impl; [|exact Habove]. simpl. intros j Hj. lia.
    + split; [|assumption].
      eapply Forall_impl; [|exact Habove]. simpl. intros j Hj. lia.
Qed.

Lemma run_counters_grow (k : kind) (cs : list call) (st : state) :
  counter k (_counters st) <= counter k (_counters (run cs st)).
Proof.
  unfold run. revert st.
  induction cs as [|c rest IH]; intros st; simpl; [lia|].
  pose proof (counters_grow k c st). specialize (IH (snd (dispatch c st))).
  lia.
Qed.

(** The counter bounds every id minted so far. *)
Lemma minted_ids_below (k : kind) (cs : list call) (st : state) :
  Forall (fun j => j <= counter k (_counters (run cs st)))
         (minted_ids k (outcomes cs st)).
Proof.
  revert st. induction cs as [|c rest IH]; intros st; simpl; [constructor|].
  specialize (IH (snd (dispatch c st))).
  destruct (minted k (c, fst (dispatch c st))) as [i|] eqn:Hm; [|exact IH].
  constructor; [|exact IH].
  destruct (minted_next _ _ _ Hm) as [_ <-].
  apply (run_counters_grow k rest).
Qed.

(** C8: along every sequence of requests and for every kind, the ids
    minted by the successful creations are strictly increasing, so each is
    greater than all those minted before it, deleted since or not; in the
    state reached each table has one entry per id; and the id that a next
    creation mints is in no entry of the table and is greater than every id
    minted before. *)
Theorem ids_never_reused (k : kind) (cs : list call) :
  StronglySorted Z.lt (minted_ids k (outcomes cs initial_state))
  /\ NoDup (table_keys k (run cs initial_state))
  /\ forall c i,
       minted k (c, fst (dispatch c (run cs initial_state))) = Some i ->
       ~ In i (table_keys k (run cs initial_state))
       /\ Forall (fun j => j < i) (minted_ids k (outcomes cs initial_state)).
Proof.
  pose proof (reachable_ok (run_reachable cs)) as Hok.
  apply state_ok_inv in Hok.
  destruct Hok as ([Hwu Hbu] & [Hwc Hbc] & [Hwr Hbr] & _).
  assert (Hkeys : NoDup (table_keys k (run cs initial_state))
                  /\ forall i, In i (table_keys k (run cs initial_state)) ->
                               i <= counter k (_counters (run cs initial_state))).
  { destruct k; simpl; (split; [assumption|]);
      intros i Hi; unfold Dict.keys in Hi; apply in_map_iff in Hi;
      destruct Hi as [[k' v] [<- Hin]]; simpl.
    - now apply (Hbu k' v).
    - now apply (Hbc k' v).
    - now apply (Hbr k' v). }
  destruct Hkeys as [Hnd Hbound].
  split; [apply minted_ids_above|]. split; [assumption|].
  intros c i Hm. destruct (minted_next _ _ _ Hm) as [Hi _]. split.
  - intros Hin. specialize (Hbound i Hin). lia.
  - eapply Forall_impl; [|apply minted_ids_below]. simpl. intros j Hj. lia.
Qed.
End Identifiers.

(** A user is created, deleted, and another one created: the second user
    does not get the id of the first. *)
Example deleted_id_not_reused :
  minted_ids Kuser
    (outcomes (rt := ascii_runtime)
       [CreateUser (json_request [("name", JStr "ann")]);
        DeleteUser 1;
        CreateUser (json_request [("name", JStr "bob")])]
       initial_state) = [1; 2].
Proof. reflexivity. Qed.

Lemma ids_never_reused_witness :
  minted Krecord
    (CreateRecord sample_now
       (json_request [("user_id", JInt 1); ("category_id", JInt 1);
                      ("amount", JInt 1)]),
     fst (dispatch (rt := ascii_runtime)
            (CreateRecord sample_now
               (json_request [("user_id", JInt 1); ("category_id", JInt 1);
                              ("amount", JInt 1)]))
            (run (rt := ascii_runtime) sample_calls initial_state))) = Some 4
  /\ Forall (fun j => j < 4)
       (minted_ids Krecord (outcomes (rt := ascii_runtime) sample_calls initial_state)).
Proof.
  assert (Hm : minted Krecord
    (CreateRecord sample_now
       (json_request [("user_id", JInt 1); ("category_id", JInt 1);
                      ("amount", JInt 1)]),
     fst (dispatch (rt := ascii_runtime)
            (CreateRecord sample_now
               (json_request [("user_id", JInt 1); ("category_id", JInt 1);
                              ("amount", JInt 1)]))
            (run (rt := ascii_runtime) sample_calls initial_state))) = Some 4)
    by reflexivity.
  split; [exact Hm|].
  destruct (@ids_never_reused ascii_runtime Krecord sample_calls) as (_ & _ & Hnext).
  exact (proj2 (Hnext _ _ Hm)).
Defined.

(** ** Scenarios *)

Module Scenarios.

Definition u := CreateUser (json_request [("name", JStr "ann")]).
Definition c := CreateCategory (json_request [("name", JStr "Food")]).
Definition r :=
  CreateRecord sample_now
    (json_request [("user_id", JInt 1); ("category_id", JInt 1);
                   ("amount", JFloat (S754_zero false))]).

(** A user, a category and a record of both; deleting the user reports one
    deleted record, and the record is gone. *)
Example cascade_on_user :
  map snd (outcomes (rt := ascii_runtime) [u; c; r; DeleteUser 1; GetRecord 1]
             initial_state)
  = [Returned (user_json (mkUser 1 "ann")) 201;
     Returned (category_json (mkCategory 1 "Food")) 201;
     Returned (record_json (mkRecord 1 (PInt 1) (PInt 1) "2025-10-13T10:00:00Z"
                                     (S754_zero false))) 201;
     Returned (JObj [("status", JStr "deleted"); ("user_id", JInt 1);
                     ("deleted_records", JInt 1)]) 200;
     _error "record 1 not found" 404].
Proof. reflexivity. Qed.

(** Two names that differ in case only: the second creation is a conflict. *)
Example food_then_food :
  map snd (outcomes (rt := ascii_runtime)
             [c; CreateCategory (json_request [("name", JStr "food")])]
             initial_state)
  = [Returned (category_json (mkCategory 1 "Food")) 201;
     _error "category with this name already exists" 409].
Proof. reflexivity. Qed.

(** A record for a user that does not exist takes no id: the next record
    is the first. *)
Example failed_create_takes_no_id :
  minted_ids Krecord
    (outcomes (rt := ascii_runtime)
       [u; c;
        CreateRecord sample_now
          (json_request [("user_id", JInt 7); ("category_id", JInt 1);
                         ("amount", JInt 3)]);
        r]
       initial_state) = [1].
Proof. reflexivity. Qed.

(** Listing with both filters keeps the records that pass both. *)
Example list_with_both_filters :
  fst (list_records (rt := ascii_runtime)
         (query_request [("user_id", "1"); ("category_id", "1")]) sample_state)
  = Returned
      (JObj [("items",
              JArr [record_json
                      (mkRecord 2 (PBool true) (PBool true) "2025-10-13T10:00:00Z"
                                (S754_finite false 5629499534213120 (-50)))]);
             ("total", JInt 1)]) 200.
Proof. reflexivity. Qed.

(** A query value that does not convert counts as not given. *)
Example list_with_unconvertible_filter :
  fst (list_records (rt := ascii_runtime)
         (query_request [("user_id", "abc")]) sample_state)
  = _error "at least one of query params 'user_id' or 'category_id' is required"
           400.
Proof. reflexivity. Qed.

(** The recogniser checks the calendar, not only the shape. *)
Example recogniser_rejects :
  map Iso8601.parses
      ["2025-10-13T10:00:00Z"; "2024-02-29T23:59:59.000123+05:30";
       "2023-02-29T00:00:00Z"; "2025-13-01T00:00:00Z"; "2025-10-13 10:00";
       "2025-10-13T10:00:00ZZ"]%string
  = [true; true; false; false; false; false].
Proof. reflexivity. Qed.

End Scenarios.

(** * Further properties of the handlers *)

(** ** What every request does *)

(** Run the handler applied in [H] down to the leaf that answers. *)
Ltac leaf_of H :=
  simpl in H;
  unfold health, index, respond, get_user, delete_user, create_user,
         list_users, list_categories, create_category, delete_category,
         get_record, delete_record, create_record, list_records, try_,
         _error, _next_id in H;
  simpl in H;
  repeat match type of H with
         | context [match ?x with _ => _ end] => destruct x eqn:?
         | context [if ?b then _ else _] => destruct b eqn:?
         end;
  simpl in H.

(** The routes that only read. *)
Definition reads_only (c : call) : bool :=
  match c with
  | Health | Index | GetUser _ | ListUsers | ListCategories | GetRecord _
  | ListRecords _ => true
  | _ => false
  end.

Section EveryRequest.
Context {rt : PyRuntime}.

(** X1: whatever the route, a response carries one of five statuses; a
    status other than 200 and 201 comes with the state untouched and a body
    of the shape [{"error": message}]; 201 is answered by the three creations
    only, 200 never by a creation, and 409 by [create_category] only. *)
Theorem responses_are_uniform
    (c : call) (st st' : state) (body : json) (status : Z) :
  dispatch c st = (Returned body status, st') ->
  (status = 200 \/ status = 201 \/ status = 400 \/ status = 404 \/ status = 409)
  /\ (status <> 200 -> status <> 201 ->
      st' = st /\ exists message, body = JObj [("error", JStr message)])
  /\ (status = 201 -> creates c <> None)
  /\ (status = 200 -> creates c = None)
  /\ (status = 409 -> exists req, c = CreateCategory req).
Proof.
  intros Hrun.
  destruct c; leaf_of Hrun; try discriminate Hrun;
    injection Hrun as <- <- <-;
    (split; [lia|]);
    (split; [intros; try lia; (split; [reflexivity | eauto])|]);
    (split; [intros; try lia; simpl; discriminate|]);
    (split; [intros; try lia; reflexivity|]);
    intros; try lia; eauto.
Qed.

(** X2: the routes that only read answer with a body and a status, never
    with an exception, and leave the state as it is. *)
Theorem reads_keep_state (c : call) (st : state) :
  reads_only c = true ->
  exists body status, dispatch c st = (Returned body status, st).
Proof.
  intros Hread. destruct (dispatch c st) as [r st'] eqn:Hrun.
  destruct c; try discriminate Hread; leaf_of Hrun;
    injection Hrun as <- <-; eauto.
Qed.

(** X3: a request moves a counter only when it is a creation of that kind,
    and then by one; the counters of the other kinds stay. *)
Theorem counters_move_on_creation (k : kind) (c : call) (st : state) :
  counter k (_counters (snd (dispatch c st))) = counter k (_counters st)
  \/ (creates c = Some k
      /\ counter k (_counters (snd (dispatch c st))) = counter k (_counters st) + 1).
Proof.
  destruct (dispatch c st) as [r st'] eqn:Hrun.
  destruct c; leaf_of Hrun; injection Hrun as <- <-; simpl;
    try (left; reflexivity);
    destruct k; simpl; try (left; reflexivity); right; split; reflexivity.
Qed.

(** The request that a route reads its body from. *)
Definition body_request (c : call) : option request :=
  match c with
  | CreateUser req | CreateCategory req | DeleteCategory req
  | CreateRecord _ req => Some req
  | _ => None
  end.

Lemma py_get_raises (key : string) (req : request) (e : exn) :
  py_get key (json_or_empty req) = inl e ->
  (e = RecursionError /\ get_json req = ReadRaises)
  \/ (e = AttributeError
      /\ exists v, get_json req = Read (Some v) /\ py_truthy v = true
                   /\ forall kv, v <> JObj kv).
Proof.
  unfold json_or_empty.
  destruct (get_json req) as [|[v|]]; simpl; [intros [= <-]; auto | | discriminate].
  destruct (py_truthy v) eqn:Ht; [|discriminate].
  destruct v; simpl; try discriminate; intros [= <-]; right;
    (split; [reflexivity|]); eexists; (split; [reflexivity|]);
    (split; [assumption|]); intros kv'; discriminate.
Qed.

Lemma py_float_raises (amount : json) (e : exn) :
  is_number amount = true ->
  py_float amount = inl e ->
  e = OverflowError
  /\ exists z, amount = JInt z /\ float_of_Z z = inl OverflowError.
Proof.
  destruct amount; simpl; try discriminate; intros _ Hf.
  assert (e = OverflowError).
  { unfold float_of_Z in Hf.
    destruct (binary_normalize 53 1024 z 0 false); congruence. }
  subst e. eauto.
Qed.

(** Split on the checks of the handler applied in [H], without unfolding
    what they compute. *)
Ltac checks_of H :=
  repeat match type of H with
         | context [match ?x with _ => _ end] => destruct x eqn:?
         | context [if ?b then _ else _] => destruct b eqn:?
         end.

(** X4: an exception escapes a handler in three cases only.  It is
    [RecursionError] when the route calls [request.get_json] and the call
    raises; it is [AttributeError] when the route reads a body that is JSON,
    truthy and not an object; in both cases the state is untouched.  It is
    [OverflowError] when [create_record] converts an integer amount that is
    out of the range of a float; the record counter has then moved by one
    and nothing else has changed.  Conversely, a [get_json] that raises makes
    [create_user], [create_category] and [create_record] raise, and
    [delete_category] when no query parameter gives the id. *)
Theorem raises_are_three (c : call) (st : state) :
  (forall st' e,
     dispatch c st = (Raised e, st') ->
     (e = RecursionError
      /\ st' = st
      /\ exists req, body_request c = Some req /\ get_json req = ReadRaises)
     \/ (e = AttributeError
         /\ st' = st
         /\ exists req v,
              body_request c = Some req /\ get_json req = Read (Some v)
              /\ py_truthy v = true /\ forall kv, v <> JObj kv)
     \/ (e = OverflowError
         /\ exists now req z,
              c = CreateRecord now req
              /\ py_get "amount" (json_or_empty req) = inr (JInt z)
              /\ float_of_Z z = inl OverflowError
              /\ st' = with_counters
                         (set_counter Krecord (n_record (_counters st) + 1)
                                      (_counters st)) st))
  /\ (forall req,
        body_request c = Some req ->
        get_json req = ReadRaises ->
        (forall r, c = DeleteCategory r -> args_get_int "id" r = None) ->
        dispatch c st = (Raised RecursionError, st)).
Proof.
  split.
  - intros st' e Hrun.
    assert (Hbody : forall key req,
               body_request c = Some req ->
               py_get key (json_or_empty req) = inl e -> st' = st ->
               (e = RecursionError
                /\ st' = st
                /\ exists req, body_request c = Some req
                               /\ get_json req = ReadRaises)
               \/ (e = AttributeError
                   /\ st' = st
                   /\ exists req v,
                        body_request c = Some req /\ get_json req = Read (Some v)
                        /\ py_truthy v = true /\ forall kv, v <> JObj kv)
               \/ (e = OverflowError
                   /\ exists now req z,
                        c = CreateRecord now req
                        /\ py_get "amount" (json_or_empty req) = inr (JInt z)
                        /\ float_of_Z z = inl OverflowError
                        /\ st' = with_counters
                                   (set_counter Krecord
                                      (n_record (_counters st) + 1)
                                      (_counters st)) st)).
    { intros key req Hreq Hget Hst.
      destruct (py_get_raises _ _ Hget) as [[He Hr]|(He & v & Hv & Ht & Hno)].
      - left. split; [assumption|]. split; [assumption|]. exists req. auto.
      - right. left. split; [assumption|]. split; [assumption|].
        exists req, v. auto. }
    destruct c; cbn [dispatch] in Hrun.
    + discriminate.
    + discriminate.
    + unfold get_user in Hrun. checks_of Hrun; discriminate.
    + unfold delete_user in Hrun. checks_of Hrun; discriminate.
    + unfold create_user, try_, respond, _error in Hrun.
      destruct (py_get "name" (json_or_empty req)) as [e'|name] eqn:Hname.
      * injection Hrun as -> ->. eapply Hbody; eauto. reflexivity.
      * checks_of Hrun; discriminate.
    + discriminate.
    + discriminate.
    + unfold create_category, try_, respond, _error in Hrun.
      destruct (py_get "name" (json_or_empty req)) as [e'|name] eqn:Hname.
      * injection Hrun as -> ->. eapply Hbody; eauto. reflexivity.
      * checks_of Hrun; discriminate.
    + unfold delete_category, try_, respond, _error, category_id_source in Hrun.
      destruct (args_get_int "id" req) as [z|].
      * checks_of Hrun; discriminate.
      * destruct (py_get "id" (json_or_empty req)) as [e'|v] eqn:Hid.
        -- injection Hrun as -> ->. eapply Hbody; eauto. reflexivity.
        -- checks_of Hrun; discriminate.
    + unfold get_record in Hrun. checks_of Hrun; discriminate.
    + unfold delete_record in Hrun. checks_of Hrun; discriminate.
    + unfold create_record, try_, respond, _error in Hrun.
      destruct (py_get "user_id" (json_or_empty req)) as [e'|user_id] eqn:Hu.
      { injection Hrun as -> ->. eapply Hbody; eauto. reflexivity. }
      destruct (py_get "category_id" (json_or_empty req)) as [e'|category_id]
        eqn:Hc.
      { injection Hrun as -> ->. eapply Hbody; eauto. reflexivity. }
      destruct (py_get "amount" (json_or_empty req)) as [e'|amount] eqn:Ha.
      { injection Hrun as -> ->. eapply Hbody; eauto. reflexivity. }
      destruct (py_get "created_at" (json_or_empty req)) as [e'|created_at]
        eqn:Hcr.
      { injection Hrun as -> ->. eapply Hbody; eauto. reflexivity. }
      destruct (as_int user_id) as [uid|]; [|discriminate].
      destruct (as_int category_id) as [cid|]; [|discriminate].
      destruct (is_number amount) eqn:Hnum; [|discriminate]. cbn [negb] in Hrun.
      destruct (negb (Dict.contains (int_val uid) (_users st))); [discriminate|].
      destruct (negb (Dict.contains (int_val cid) (_categories st)));
        [discriminate|].
      destruct (check_created_at now created_at) as [stamp|]; [|discriminate].
      unfold _next_id in Hrun. cbn [fst snd] in Hrun.
      destruct (py_float amount) as [e'|amount_f] eqn:Hf; [|discriminate].
      injection Hrun as -> <-.
      destruct (py_float_raises _ Hnum Hf) as (-> & z & -> & Hz).
      right. right. split; [reflexivity|]. exists now, req, z. auto.
    + unfold list_records in Hrun. checks_of Hrun; discriminate.
  - intros req Hreq Hraise Hquery.
    assert (Hget : forall key, py_get key (json_or_empty req) = inl RecursionError).
    { intros key. unfold json_or_empty. now rewrite Hraise. }
    destruct c; try discriminate Hreq; injection Hreq as ->; cbn [dispatch].
    + unfold create_user, try_. now rewrite Hget.
    + unfold create_category, try_. now rewrite Hget.
    + unfold delete_category, try_, category_id_source.
      now rewrite (Hquery req eq_refl), Hget.
    + unfold create_record, try_. now rewrite Hget.
Qed.
End EveryRequest.

(** ** What holds of every state of the service *)

Section MoreDictFacts.
Variable V : Type.
Implicit Types (d : Dict.t V) (k : Z) (v : V).

Lemma contains_set_same k v d : Dict.contains k (Dict.set k v d) = true.
Proof.
  unfold Dict.contains. induction d as [|[k' v'] rest IH]; simpl.
  - now rewrite Z.eqb_refl.
  - destruct (Z.eqb_spec k' k) as [->|Hne]; simpl.
    + now rewrite Z.eqb_refl.
    + rewrite IH. apply orb_true_r.
Qed.

Lemma contains_set_mono k k' v d :
  Dict.contains k d = true -> Dict.contains k (Dict.set k' v d) = true.
Proof.
  unfold Dict.contains. induction d as [|[k0 v0] rest IH]; simpl; [discriminate|].
  destruct (k0 =? k'); simpl; [tauto|].
  destruct (k0 =? k); simpl; auto.
Qed.

Lemma In_set k v d x : In x (Dict.set k v d) -> x = (k, v) \/ In x d.
Proof.
  induction d as [|[k0 v0] rest IH]; simpl.
  - intros [<-|[]]. now left.
  - destruct (Z.eqb_spec k0 k) as [->|Hne]; simpl; intros [<-|Hin]; auto.
    destruct (IH Hin); auto.
Qed.

Lemma sorted_filter (p : Z * V -> bool) d :
  StronglySorted Z.lt (Dict.keys d) ->
  StronglySorted Z.lt (Dict.keys (filter p d)).
Proof.
  unfold Dict.keys. induction d as [|kv rest IH]; simpl; intros Hs; [constructor|].
  inversion Hs as [|? ? Hrest Hall]; subst.
  destruct (p kv); simpl; [constructor|]; auto.
  rewrite Forall_forall in *. intros x Hx. apply Hall.
  apply in_map_iff in Hx. destruct Hx as [y [<- Hy]].
  apply filter_In in Hy. apply in_map. tauto.
Qed.

Lemma sorted_set_next k v d :
  StronglySorted Z.lt (Dict.keys d) ->
  (forall k', In k' (Dict.keys d) -> k' < k) ->
  StronglySorted Z.lt (Dict.keys (Dict.set k v d)).
Proof.
  intros Hs Hlt. rewrite DictFacts.set_fresh.
  - unfold Dict.keys in *. rewrite map_app. simpl.
    induction (map fst d) as [|x rest IH]; simpl.
    + repeat constructor.
    + inversion Hs as [|? ? Hrest Hall]; subst. constructor.
      * apply IH; [assumption|]. intros k' Hk'. apply Hlt. now right.
      * apply Forall_app. split; [assumption|].
        constructor; [|constructor]. apply Hlt. now left.
  - apply DictFacts.contains_false. intros Hin. specialize (Hlt k Hin). lia.
Qed.
End MoreDictFacts.

Lemma In_pop_all (rids : list Z) (d : Dict.t record) (rid : Z) (r : record) :
  In (rid, r) (pop_all rids d) -> In (rid, r) d /\ ~ In rid rids.
Proof.
  rewrite DictFacts.pop_all_filter, filter_In. simpl.
  intros [Hin Hno]. split; [assumption|]. intros Hrid.
  apply negb_true_iff in Hno. apply not_true_iff_false in Hno. apply Hno.
  apply existsb_exists. exists rid. split; [assumption | apply Z.eqb_refl].
Qed.

Lemma In_to_delete (matches : record -> bool) (d : Dict.t record)
    (rid : Z) (r : record) :
  In (rid, r) d -> matches r = true -> In rid (to_delete matches d).
Proof.
  intros Hin Hm. unfold to_delete, Dict.items. apply in_map_iff.
  exists (rid, r). split; [reflexivity|]. apply filter_In. auto.
Qed.

(** Every record names a stored user and a stored category. *)
Definition refs_ok (st : state) : Prop :=
  forall rid r, In (rid, r) (_records st) ->
    Dict.contains (int_val (r_user_id r)) (_users st) = true
    /\ Dict.contains (int_val (r_category_id r)) (_categories st) = true.

(** The keys of the three tables are in ascending order. *)
Definition tables_sorted (st : state) : Prop :=
  StronglySorted Z.lt (Dict.keys (_users st))
  /\ StronglySorted Z.lt (Dict.keys (_categories st))
  /\ StronglySorted Z.lt (Dict.keys (_records st)).

Section StateFacts.
Context {rt : PyRuntime}.

Lemma dispatch_refs_ok (c : call) (st : state) :
  refs_ok st -> refs_ok (snd (dispatch c st)).
Proof.
  intros Hrefs. destruct c; cbn [dispatch]; try exact Hrefs.
  - unfold get_user. now destruct (Dict.get user_id (_users st)).
  - unfold delete_user.
    destruct (negb (Dict.contains user_id (_users st))); [exact Hrefs|].
    intros rid r Hin. cbn [snd _records _users _categories with_users with_records]
      in *.
    apply In_pop_all in Hin. destruct Hin as [Hin Hno].
    destruct (Hrefs rid r Hin) as [Hu Hc]. split; [|assumption].
    destruct (Z.eqb_spec (int_val (r_user_id r)) user_id) as [Heq|Hne].
    + exfalso. apply Hno.
      apply In_to_delete with (r := r); [assumption|]. now apply Z.eqb_eq.
    + now rewrite DictFacts.contains_pop_other.
  - unfold create_user, try_, respond.
    destruct (py_get "name" (json_or_empty req)) as [e|name]; [exact Hrefs|].
    destruct name; try exact Hrefs.
    destruct (negb (py_truthy (JStr s))); [exact Hrefs|].
    intros rid r Hin. destruct (Hrefs rid r Hin) as [Hu Hc].
    split; [|assumption]. now apply contains_set_mono.
  - unfold create_category, try_, respond.
    destruct (py_get "name" (json_or_empty req)) as [e|name]; [exact Hrefs|].
    destruct name; try exact Hrefs.
    destruct (negb (py_truthy (JStr s))); [exact Hrefs|].
    destruct (name_taken s (_categories st)); [exact Hrefs|].
    intros rid r Hin. destruct (Hrefs rid r Hin) as [Hu Hc].
    split; [assumption|]. now apply contains_set_mono.
  - unfold delete_category, try_, respond.
    destruct (category_id_source req) as [e|v]; [exact Hrefs|].
    destruct (as_int v) as [cat_id|]; [|exact Hrefs].
    destruct (negb (Dict.contains (int_val cat_id) (_categories st)));
      [exact Hrefs|].
    intros rid r Hin.
    cbn [snd _records _users _categories with_categories with_records] in *.
    apply In_pop_all in Hin. destruct Hin as [Hin Hno].
    destruct (Hrefs rid r Hin) as [Hu Hc]. split; [assumption|].
    destruct (Z.eqb_spec (int_val (r_category_id r)) (int_val cat_id))
      as [Heq|Hne].
    + exfalso. apply Hno.
      apply In_to_delete with (r := r); [assumption|]. now apply Z.eqb_eq.
    + now rewrite DictFacts.contains_pop_other.
  - unfold get_record. now destruct (Dict.get record_id (_records st)).
  - unfold delete_record.
    destruct (negb (Dict.contains record_id (_records st))); [exact Hrefs|].
    intros rid r Hin. cbn [snd _records _users _categories with_records] in *.
    apply filter_In in Hin. apply (Hrefs rid r). tauto.
  - unfold create_record, try_, respond.
    destruct (py_get "user_id" (json_or_empty req)) as [e|user_id];
      [exact Hrefs|].
    destruct (py_get "category_id" (json_or_empty req)) as [e|category_id];
      [exact Hrefs|].
    destruct (py_get "amount" (json_or_empty req)) as [e|amount]; [exact Hrefs|].
    destruct (py_get "created_at" (json_or_empty req)) as [e|created_at];
      [exact Hrefs|].
    destruct (as_int user_id) as [uid|]; [|exact Hrefs].
    destruct (as_int category_id) as [cid|]; [|exact Hrefs].
    destruct (negb (is_number amount)); [exact Hrefs|].
    destruct (Dict.contains (int_val uid) (_users st)) eqn:Hu; [|exact Hrefs].
    destruct (Dict.contains (int_val cid) (_categories st)) eqn:Hc;
      [|exact Hrefs].
    cbn [negb]. destruct (check_created_at now created_at); [|exact Hrefs].
    unfold _next_id. destruct (py_float amount) as [e|amount_f]; [exact Hrefs|].
    intros rid r Hin.
    cbn [fst snd _records _users _categories with_records with_counters] in *.
    apply In_set in Hin. destruct Hin as [Heq|Hin]; [|now apply (Hrefs rid r)].
    injection Heq as _ ->. simpl. auto.
  - unfold list_records.
    now destruct (args_get_int "user_id" req), (args_get_int "category_id" req).
Qed.

(** X5: after any sequence of requests every stored record names a
    stored user and a stored category: the checks at creation and the two
    cascades keep the references whole. *)
Theorem records_reference_stored_entities (cs : list call) :
  refs_ok (run cs initial_state).
Proof.
  unfold run. assert (H : refs_ok initial_state) by (intros rid r []).
  revert H. generalize initial_state.
  induction cs as [|c rest IH]; intros st Hst; simpl; [assumption|].
  apply IH. now apply dispatch_refs_ok.
Qed.

Lemma keys_below (V : Type) (id_of : V -> Z) (n : Z) (d : Dict.t V) :
  table_inv id_of n d -> forall k, In k (Dict.keys d) -> k < n + 1.
Proof.
  intros [_ Hall] k Hk. unfold Dict.keys in Hk. apply in_map_iff in Hk.
  destruct Hk as [[k' v] [<- Hin]]. destruct (Hall _ _ Hin). simpl. lia.
Qed.

Lemma ids_are_keys (V : Type) (id_of : V -> Z) (n : Z) (d : Dict.t V) :
  table_inv id_of n d -> map id_of (Dict.values d) = Dict.keys d.
Proof.
  intros [_ Hall]. unfold Dict.values, Dict.keys. rewrite map_map.
  apply map_ext_in. intros [k v] Hin. simpl. now destruct (Hall _ _ Hin).
Qed.

Lemma sorted_map_filter (A : Type) (f : A -> Z) (p : A -> bool) (l : list A) :
  StronglySorted Z.lt (map f l) -> StronglySorted Z.lt (map f (filter p l)).
Proof.
  induction l as [|x rest IH]; simpl; intros Hs; [constructor|].
  inversion Hs as [|? ? Hrest Hall]; subst.
  destruct (p x); simpl; [constructor|]; auto.
  rewrite Forall_forall in *. intros y Hy. apply Hall.
  apply in_map_iff in Hy. destruct Hy as [z [<- Hz]].
  apply filter_In in Hz. apply in_map. tauto.
Qed.

Lemma dispatch_sorted (c : call) (st : state) :
  state_inv st -> tables_sorted st -> tables_sorted (snd (dispatch c st)).
Proof.
  intros (Hu & Hc & Hr & _) Hsorted. pose proof Hsorted as (Hsu & Hsc & Hsr).
  destruct c; cbn [dispatch]; try exact Hsorted.
  - unfold get_user. now destruct (Dict.get user_id (_users st)).
  - unfold delete_user.
    destruct (negb (Dict.contains user_id (_users st))); [exact Hsorted|].
    unfold tables_sorted.
    cbn [snd _records _users _categories with_users with_records].
    rewrite DictFacts.pop_all_filter.
    split; [now apply sorted_filter|]. split; [assumption|].
    now apply sorted_filter.
  - unfold create_user, try_, respond.
    destruct (py_get "name" (json_or_empty req)) as [e|name]; [exact Hsorted|].
    destruct name; try exact Hsorted.
    destruct (negb (py_truthy (JStr s))); [exact Hsorted|].
    split; [|split; assumption].
    apply sorted_set_next; [assumption|]. now apply keys_below with (id_of := u_id).
  - unfold create_category, try_, respond.
    destruct (py_get "name" (json_or_empty req)) as [e|name]; [exact Hsorted|].
    destruct name; try exact Hsorted.
    destruct (negb (py_truthy (JStr s))); [exact Hsorted|].
    destruct (name_taken s (_categories st)); [exact Hsorted|].
    split; [assumption|]. split; [|assumption].
    apply sorted_set_next; [assumption|]. now apply keys_below with (id_of := c_id).
  - unfold delete_category, try_, respond.
    destruct (category_id_source req) as [e|v]; [exact Hsorted|].
    destruct (as_int v) as [cat_id|]; [|exact Hsorted].
    destruct (negb (Dict.contains (int_val cat_id) (_categories st)));
      [exact Hsorted|].
    unfold tables_sorted.
    cbn [snd _records _users _categories with_categories with_records].
    rewrite DictFacts.pop_all_filter.
    split; [assumption|]. split; now apply sorted_filter.
  - unfold get_record. now destruct (Dict.get record_id (_records st)).
  - unfold delete_record.
    destruct (negb (Dict.contains record_id (_records st))); [exact Hsorted|].
    split; [assumption|]. split; [assumption|]. now apply sorted_filter.
  - unfold create_record, try_, respond.
    destruct (py_get "user_id" (json_or_empty req)) as [e|user_id];
      [exact Hsorted|].
    destruct (py_get "category_id" (json_or_empty req)) as [e|category_id];
      [exact Hsorted|].
    destruct (py_get "amount" (json_or_empty req)) as [e|amount];
      [exact Hsorted|].
    destruct (py_get "created_at" (json_or_empty req)) as [e|created_at];
      [exact Hsorted|].
    destruct (as_int user_id) as [uid|]; [|exact Hsorted].
    destruct (as_int category_id) as [cid|]; [|exact Hsorted].
    destruct (negb (is_number amount)); [exact Hsorted|].
    destruct (negb (Dict.contains (int_val uid) (_users st))); [exact Hsorted|].
    destruct (negb (Dict.contains (int_val cid) (_categories st)));
      [exact Hsorted|].
    destruct (check_created_at now created_at); [|exact Hsorted].
    unfold _next_id. destruct (py_float amount) as [e|amount_f]; [exact Hsorted|].
    split; [assumption|]. split; [assumption|].
    cbn [fst snd _records with_records with_counters].
    apply sorted_set_next; [assumption|]. now apply keys_below with (id_of := r_id).
  - unfold list_records.
    now destruct (args_get_int "user_id" req), (args_get_int "category_id" req).
Qed.

Lemma run_sorted (cs : list call) :
  state_inv (run cs initial_state) /\ tables_sorted (run cs initial_state).
Proof.
  unfold run.
  assert (H : state_inv initial_state /\ tables_sorted initial_state).
  { split; [apply state_ok_inv, initial_state_ok|]. repeat split; constructor. }
  revert H. generalize initial_state.
  induction cs as [|c rest IH]; intros st [Hinv Hs]; simpl; [auto|].
  apply IH. split; [now apply dispatch_inv | now apply dispatch_sorted].
Qed.

Lemma response_ids (A : Type) (to_json : A -> json) (id_of : A -> Z)
    (l : list A) :
  (forall x, response_id (to_json x) = Some (id_of x)) ->
  map response_id (map to_json l) = map Some (map id_of l).
Proof.
  intros H. rewrite !map_map. apply map_ext. exact H.
Qed.

(** X6: after any sequence of requests the listings come in the order of
    creation, which is the ascending order of the ids: [list_users] and
    [list_categories] return every stored entity, the ids in the items
    strictly increasing and [total] their number; and whenever a filter is
    supplied, [list_records] returns items whose ids are strictly increasing
    too, with [total] their number. *)
Theorem listings_in_creation_order (cs : list call) (req : request) :
  (exists us,
     us = Dict.values (_users (run cs initial_state))
     /\ fst (list_users (run cs initial_state)) =
          Returned (JObj [("items", JArr (map user_json us));
                          ("total", JInt (Z.of_nat (List.length us)))]) 200
     /\ map response_id (map user_json us) = map Some (map u_id us)
     /\ StronglySorted Z.lt (map u_id us))
  /\ (exists cats,
        cats = Dict.values (_categories (run cs initial_state))
        /\ fst (list_categories (run cs initial_state)) =
             Returned (JObj [("items", JArr (map category_json cats));
                             ("total", JInt (Z.of_nat (List.length cats)))]) 200
        /\ map response_id (map category_json cats) = map Some (map c_id cats)
        /\ StronglySorted Z.lt (map c_id cats))
  /\ (args_get_int "user_id" req <> None \/ args_get_int "category_id" req <> None ->
      exists items ids,
        list_records req (run cs initial_state) =
          (Returned (JObj [("items", JArr items);
                           ("total", JInt (Z.of_nat (List.length items)))]) 200,
           run cs initial_state)
        /\ map response_id items = map Some ids
        /\ StronglySorted Z.lt ids).
Proof.
  destruct (run_sorted cs) as [(Hu & Hc & Hr & _) (Hsu & Hsc & Hsr)].
  split; [|split].
  - eexists. split; [reflexivity|]. split; [|split].
    + unfold list_users, Dict.len, Dict.values. simpl. now rewrite length_map.
    + now apply response_ids.
    + now rewrite (ids_are_keys Hu).
  - eexists. split; [reflexivity|]. split; [|split].
    + unfold list_categories, Dict.len, Dict.values. simpl. now rewrite length_map.
    + now apply response_ids.
    + now rewrite (ids_are_keys Hc).
  - intros Hsupplied.
    assert (Hsorted : forall p,
               StronglySorted Z.lt
                 (map r_id (filter p (Dict.values (_records (run cs initial_state)))))).
    { intros p. apply sorted_map_filter. now rewrite (ids_are_keys Hr). }
    unfold list_records.
    destruct (args_get_int "user_id" req) as [u|],
             (args_get_int "category_id" req) as [c|];
      try (destruct Hsupplied; congruence);
      eexists; eexists; (split; [rewrite length_map; reflexivity|]);
      (split; [now apply response_ids with (id_of := r_id)|]).
    + rewrite filter_filter. apply Hsorted.
    + apply Hsorted.
    + apply Hsorted.
Qed.
End StateFacts.

(** ** How the operations compose *)

Lemma In_values_set_same (V : Type) (k : Z) (v : V) (d : Dict.t V) :
  In v (Dict.values (Dict.set k v d)).
Proof.
  induction d as [|[k' v'] rest IH]; simpl; [now left|].
  destruct (k' =? k); simpl; auto.
Qed.

Lemma filter_none (A : Type) (p : A -> bool) (l : list A) :
  (forall x, In x l -> p x = false) -> filter p l = [].
Proof.
  induction l as [|x rest IH]; simpl; intros H; [reflexivity|].
  rewrite (H x) by now left. apply IH. intros y Hy. apply H. now right.
Qed.

Lemma get_absent (V : Type) (k : Z) (d : Dict.t V) :
  Dict.contains k d = false -> Dict.get k d = None.
Proof.
  intros Hno. destruct (Dict.get k d) as [v|] eqn:Hget; [|reflexivity].
  apply DictFacts.contains_false in Hno. exfalso. apply Hno.
  apply DictFacts.get_Some_In in Hget. unfold Dict.keys.
  change k with (fst (k, v)). now apply in_map.
Qed.

Lemma get_present (V : Type) (k : Z) (d : Dict.t V) :
  Dict.wf d -> Dict.contains k d = true ->
  exists v, Dict.get k d = Some v /\ In (k, v) d.
Proof.
  intros Hwf Hin. apply DictFacts.contains_true in Hin.
  unfold Dict.keys in Hin. apply in_map_iff in Hin.
  destruct Hin as [[k' v] [Hk Hin]]. simpl in Hk. subst k'.
  exists v. split; [now apply DictFacts.In_get | assumption].
Qed.

Section Compositions.
Context {rt : PyRuntime}.

(** X7: a user created with a non-empty name is the last of the users
    and is what [get_user] returns for the id in the response. *)
Theorem create_then_get_user (req : request) (st : state) (s : string) :
  state_ok st = true ->
  py_get "name" (json_or_empty req) = inr (JStr s) ->
  s <> "" ->
  exists u st',
    create_user req st = (Returned (user_json u) 201, st')
    /\ u_name u = s
    /\ response_id (user_json u) = Some (u_id u)
    /\ get_user (u_id u) st' = (Returned (user_json u) 200, st')
    /\ Dict.values (_users st') = Dict.values (_users st) ++ [u].
Proof.
  intros Hok Hname Hs. apply state_ok_inv in Hok. destruct Hok as (Hu & _).
  pose proof (table_inv_fresh Hu) as Hfresh.
  exists (mkUser (n_user (_counters st) + 1) s).
  eexists. split.
  - unfold create_user, try_, respond. rewrite Hname. simpl.
    destruct (String.eqb_spec s ""); [contradiction|]. simpl. reflexivity.
  - split; [reflexivity|]. split; [reflexivity|]. split.
    + unfold get_user. cbn [_users with_users with_counters u_id].
      now rewrite DictFacts.get_set_same.
    + cbn [_users with_users with_counters].
      rewrite DictFacts.set_fresh by assumption.
      unfold Dict.values. now rewrite map_app.
Qed.

(** X8: once a category is created, a creation under a name that
    lowercases to the same string is a conflict and stores nothing. *)
Theorem created_name_is_taken (req req' : request) (st : state) (s s' : string) :
  py_get "name" (json_or_empty req) = inr (JStr s) ->
  s <> "" ->
  name_taken s (_categories st) = false ->
  py_get "name" (json_or_empty req') = inr (JStr s') ->
  str_lower s' = str_lower s ->
  exists c st',
    create_category req st = (Returned (category_json c) 201, st')
    /\ c_name c = s
    /\ create_category req' st' =
         (_error "category with this name already exists" 409, st').
Proof.
  intros Hname Hs Hfree Hname' Hlower.
  assert (Hs' : s' <> "").
  { intros ->. apply Hs. apply str_lower_empty. rewrite <- Hlower.
    now apply str_lower_empty. }
  exists (mkCategory (n_category (_counters st) + 1) s). eexists. split.
  - unfold create_category, try_, respond. rewrite Hname. simpl.
    destruct (String.eqb_spec s ""); [contradiction|]. simpl.
    rewrite Hfree. reflexivity.
  - split; [reflexivity|].
    unfold create_category, try_, respond. rewrite Hname'. simpl.
    destruct (String.eqb_spec s' ""); [contradiction|]. simpl.
    assert (Htaken : name_taken s'
              (Dict.set (n_category (_counters st) + 1)
                        (mkCategory (n_category (_counters st) + 1) s)
                        (_categories st)) = true).
    { unfold name_taken. apply existsb_exists.
      exists (mkCategory (n_category (_counters st) + 1) s).
      split; [apply In_values_set_same|]. simpl. rewrite Hlower.
      apply String.eqb_refl. }
    now rewrite Htaken.
Qed.

(** X9: what was deleted is gone.  After a deletion that succeeded, the
    same deletion answers 404 and changes nothing, and [get_user] and
    [get_record] answer 404 for the id. *)
Theorem deleted_is_gone (st : state) :
  (forall user_id,
     Dict.contains user_id (_users st) = true ->
     get_user user_id (snd (delete_user user_id st)) =
       (_error ("user " ++ str_of_Z user_id ++ " not found") 404,
        snd (delete_user user_id st))
     /\ delete_user user_id (snd (delete_user user_id st)) =
          (_error ("user " ++ str_of_Z user_id ++ " not found") 404,
           snd (delete_user user_id st)))
  /\ (forall record_id,
        Dict.contains record_id (_records st) = true ->
        get_record record_id (snd (delete_record record_id st)) =
          (_error ("record " ++ str_of_Z record_id ++ " not found") 404,
           snd (delete_record record_id st))
        /\ delete_record record_id (snd (delete_record record_id st)) =
             (_error ("record " ++ str_of_Z record_id ++ " not found") 404,
              snd (delete_record record_id st)))
  /\ (forall req v cat_id,
        category_id_source req = inr v ->
        as_int v = Some cat_id ->
        Dict.contains (int_val cat_id) (_categories st) = true ->
        delete_category req (snd (delete_category req st)) =
          (_error ("category " ++ str_of_pyint cat_id ++ " not found") 404,
           snd (delete_category req st))).
Proof.
  split; [|split].
  - intros user_id Hin.
    assert (E : snd (delete_user user_id st) =
                with_users (Dict.pop user_id (_users st))
                  (with_records
                     (pop_all (to_delete (fun r => int_val (r_user_id r) =? user_id)
                                         (_records st)) (_records st)) st)).
    { unfold delete_user. now rewrite Hin. }
    rewrite E. unfold get_user, delete_user.
    cbn [_users with_users with_records].
    now rewrite DictFacts.get_pop_same, DictFacts.contains_pop_same.
  - intros record_id Hin.
    assert (E : snd (delete_record record_id st) =
                with_records (Dict.pop record_id (_records st)) st).
    { unfold delete_record. now rewrite Hin. }
    rewrite E. unfold get_record, delete_record.
    cbn [_records with_records].
    now rewrite DictFacts.get_pop_same, DictFacts.contains_pop_same.
  - intros req v cat_id Hsrc Hint Hin.
    assert (E : snd (delete_category req st) =
                with_categories (Dict.pop (int_val cat_id) (_categories st))
                  (with_records
                     (pop_all (to_delete
                                 (fun r => int_val (r_category_id r) =? int_val cat_id)
                                 (_records st)) (_records st)) st)).
    { unfold delete_category, try_. now rewrite Hsrc, Hint, Hin. }
    rewrite E. unfold delete_category, try_. rewrite Hsrc, Hint.
    cbn [_categories with_categories with_records].
    now rewrite DictFacts.contains_pop_same.
Qed.

(** X10: after [delete_user] succeeded, listing the records of that user
    returns nothing; and after [delete_category] succeeded, so does listing
    the records of that category. *)
Theorem deleted_owner_has_no_records (st : state) (q : request) :
  (forall user_id,
     Dict.contains user_id (_users st) = true ->
     args_get_int "user_id" q = Some user_id ->
     list_records q (snd (delete_user user_id st)) =
       (Returned (JObj [("items", JArr []); ("total", JInt 0)]) 200,
        snd (delete_user user_id st)))
  /\ (forall req v cat_id,
        category_id_source req = inr v ->
        as_int v = Some cat_id ->
        Dict.contains (int_val cat_id) (_categories st) = true ->
        args_get_int "category_id" q = Some (int_val cat_id) ->
        list_records q (snd (delete_category req st)) =
          (Returned (JObj [("items", JArr []); ("total", JInt 0)]) 200,
           snd (delete_category req st))).
Proof.
  assert (Hnone : forall (m : record -> bool) (p : record -> bool),
             (forall r, p r = true -> m r = true) ->
             filter p (Dict.values (pop_all (to_delete m (_records st))
                                            (_records st))) = []).
  { intros m p Hpm. apply filter_none. intros r Hr.
    unfold Dict.values in Hr. apply in_map_iff in Hr.
    destruct Hr as [[rid r'] [Heq Hin]]. simpl in Heq. subst r'.
    apply In_pop_all in Hin. destruct Hin as [Hin Hno].
    destruct (p r) eqn:Hp; [|reflexivity]. exfalso. apply Hno.
    apply In_to_delete with (r := r); auto. }
  split.
  - intros user_id Hin Hq.
    assert (E : snd (delete_user user_id st) =
                with_users (Dict.pop user_id (_users st))
                  (with_records
                     (pop_all (to_delete (fun r => int_val (r_user_id r) =? user_id)
                                         (_records st)) (_records st)) st)).
    { unfold delete_user. now rewrite Hin. }
    rewrite E. unfold list_records. rewrite Hq.
    cbn [_records with_users with_records].
    rewrite (Hnone (fun r => int_val (r_user_id r) =? user_id)
                   (fun r => int_val (r_user_id r) =? user_id)) by auto.
    now destruct (args_get_int "category_id" q).
  - intros req v cat_id Hsrc Hint Hin Hq.
    assert (E : snd (delete_category req st) =
                with_categories (Dict.pop (int_val cat_id) (_categories st))
                  (with_records
                     (pop_all (to_delete
                                 (fun r => int_val (r_category_id r) =? int_val cat_id)
                                 (_records st)) (_records st)) st)).
    { unfold delete_category, try_. now rewrite Hsrc, Hint, Hin. }
    rewrite E. unfold list_records. rewrite Hq.
    cbn [_records with_categories with_records].
    destruct (args_get_int "user_id" q) as [u|].
    + rewrite filter_filter.
      rewrite (Hnone (fun r => int_val (r_category_id r) =? int_val cat_id)
                     (fun r => (int_val (r_user_id r) =? u)
                               && (int_val (r_category_id r) =? int_val cat_id))).
      * reflexivity.
      * intros r Hr. apply andb_true_iff in Hr. tauto.
    + rewrite (Hnone (fun r => int_val (r_category_id r) =? int_val cat_id)
                     (fun r => int_val (r_category_id r) =? int_val cat_id))
        by auto.
      reflexivity.
Qed.

(** X11: a record that was just created is the last item of the listing
    of its user, after the records the user had. *)
Theorem new_record_listed_last
    (now : datetime) (req q : request) (st : state)
    (uid cid : pyint) (amount_f : spec_float) (created_at : json) (stamp : string) :
  state_ok st = true ->
  well_referenced st (json_or_empty req) uid cid amount_f ->
  py_get "created_at" (json_or_empty req) = inr created_at ->
  check_created_at now created_at = Some stamp ->
  args_get_int "user_id" q = Some (int_val uid) ->
  args_get_int "category_id" q = None ->
  exists r st' before,
    create_record now req st = (Returned (record_json r) 201, st')
    /\ before = matching (Some (int_val uid)) None (Dict.values (_records st))
    /\ list_records q st' =
         (Returned (JObj [("items", JArr (map record_json (before ++ [r])));
                          ("total", JInt (Z.of_nat (List.length (before ++ [r]))))])
                   200, st').
Proof.
  intros Hok Href Hcreated Hstamp Hqu Hqc.
  apply state_ok_inv in Hok. destruct Hok as (_ & _ & Hr & _).
  pose proof (table_inv_fresh Hr) as Hfresh.
  exists (minted_record st uid cid stamp amount_f).
  exists (with_new_record st (minted_record st uid cid stamp amount_f)).
  eexists. split; [now apply create_record_succeeds with (created_at := created_at)|].
  split; [reflexivity|].
  unfold list_records. rewrite Hqu, Hqc.
  unfold with_new_record, minted_record, matching.
  cbn [_records r_id].
  rewrite DictFacts.set_fresh by assumption.
  unfold Dict.values. rewrite map_app, filter_app. simpl.
  rewrite Z.eqb_refl.
  rewrite (filter_ext (fun r => (int_val (r_user_id r) =? int_val uid) && true)
                      (fun r => int_val (r_user_id r) =? int_val uid))
    by (intros r; apply andb_true_r).
  reflexivity.
Qed.

Lemma contains_set_other (V : Type) (k k' : Z) (v : V) (d : Dict.t V) :
  k' <> k -> Dict.contains k' (Dict.set k v d) = Dict.contains k' d.
Proof.
  intros Hne. unfold Dict.contains.
  induction d as [|[k0 v0] rest IH]; simpl.
  - destruct (Z.eqb_spec k k'); [congruence | reflexivity].
  - destruct (Z.eqb_spec k0 k) as [->|Hk]; simpl; [reflexivity|].
    now rewrite IH.
Qed.

Lemma contains_filter_absent (V : Type) (p : Z * V -> bool) (k : Z)
    (d : Dict.t V) :
  Dict.contains k d = false -> Dict.contains k (filter p d) = false.
Proof.
  intros Hno. apply DictFacts.contains_false in Hno.
  apply DictFacts.contains_false. intros Hin. apply Hno.
  unfold Dict.keys in *. apply in_map_iff in Hin.
  destruct Hin as [x [Hx Hin]]. apply filter_In in Hin.
  apply in_map_iff. exists x. tauto.
Qed.

(** An id that the record counter has passed and that no record has is
    never given to a record. *)
Lemma passed_id_stays_free (m : Z) (c : call) (st : state) :
  m <= n_record (_counters st) ->
  Dict.contains m (_records st) = false ->
  m <= n_record (_counters (snd (dispatch c st)))
  /\ Dict.contains m (_records (snd (dispatch c st))) = false.
Proof.
  intros Hm Hfree.
  split; [pose proof (counters_grow Krecord c st) as Hgrow; simpl in Hgrow; lia|].
  destruct c; cbn [dispatch]; try exact Hfree.
  - unfold get_user. now destruct (Dict.get user_id (_users st)).
  - unfold delete_user.
    destruct (negb (Dict.contains user_id (_users st))); [exact Hfree|].
    cbn [snd _records with_users with_records].
    rewrite DictFacts.pop_all_filter. now apply contains_filter_absent.
  - unfold create_user, try_, respond.
    destruct (py_get "name" (json_or_empty req)) as [e|name]; [exact Hfree|].
    destruct name; try exact Hfree.
    now destruct (negb (py_truthy (JStr s))).
  - unfold create_category, try_, respond.
    destruct (py_get "name" (json_or_empty req)) as [e|name]; [exact Hfree|].
    destruct name; try exact Hfree.
    destruct (negb (py_truthy (JStr s))); [exact Hfree|].
    now destruct (name_taken s (_categories st)).
  - unfold delete_category, try_, respond.
    destruct (category_id_source req) as [e|v]; [exact Hfree|].
    destruct (as_int v) as [cat_id|]; [|exact Hfree].
    destruct (negb (Dict.contains (int_val cat_id) (_categories st)));
      [exact Hfree|].
    cbn [snd _records with_categories with_records].
    rewrite DictFacts.pop_all_filter. now apply contains_filter_absent.
  - unfold get_record. now destruct (Dict.get record_id (_records st)).
  - unfold delete_record.
    destruct (negb (Dict.contains record_id (_records st))); [exact Hfree|].
    cbn [snd _records with_records]. now apply contains_filter_absent.
  - unfold create_record, try_, respond.
    destruct (py_get "user_id" (json_or_empty req)) as [e|user_id];
      [exact Hfree|].
    destruct (py_get "category_id" (json_or_empty req)) as [e|category_id];
      [exact Hfree|].
    destruct (py_get "amount" (json_or_empty req)) as [e|amount]; [exact Hfree|].
    destruct (py_get "created_at" (json_or_empty req)) as [e|created_at];
      [exact Hfree|].
    destruct (as_int user_id) as [uid|]; [|exact Hfree].
    destruct (as_int category_id) as [cid|]; [|exact Hfree].
    destruct (negb (is_number amount)); [exact Hfree|].
    destruct (negb (Dict.contains (int_val uid) (_users st))); [exact Hfree|].
    destruct (negb (Dict.contains (int_val cid) (_categories st)));
      [exact Hfree|].
    destruct (check_created_at now created_at); [|exact Hfree].
    unfold _next_id. destruct (py_float amount) as [e|amount_f]; [exact Hfree|].
    cbn [fst snd _records with_records with_counters set_counter counter].
    rewrite contains_set_other by (simpl; lia). exact Hfree.
  - unfold list_records.
    now destruct (args_get_int "user_id" req), (args_get_int "category_id" req).
Qed.

Lemma passed_id_free_forever (m : Z) (cs : list call) (st : state) :
  m <= n_record (_counters st) ->
  Dict.contains m (_records st) = false ->
  Dict.contains m (_records (run cs st)) = false.
Proof.
  unfold run. revert st.
  induction cs as [|c rest IH]; intros st Hm Hfree; simpl; [assumption|].
  destruct (passed_id_stays_free c st Hm Hfree) as [Hm' Hfree'].
  now apply IH.
Qed.

(** X12: an integer amount out of the range of a float costs an id.  The
    request raises [OverflowError] with the record counter moved and nothing
    stored, so the record that the next request creates has the counter plus
    two for id, not plus one; and whatever requests follow the failed one,
    no record ever has the skipped id: [get_record] answers 404 for it. *)
Theorem overflow_skips_an_id
    (now now' : datetime) (req req' : request) (st : state)
    (uid cid uid' cid' : pyint) (z : Z) (amount_f : spec_float)
    (created_at created_at' : json) (stamp stamp' : string) :
  state_ok st = true ->
  py_get "user_id" (json_or_empty req) = inr (pyint_json uid) ->
  Dict.contains (int_val uid) (_users st) = true ->
  py_get "category_id" (json_or_empty req) = inr (pyint_json cid) ->
  Dict.contains (int_val cid) (_categories st) = true ->
  py_get "amount" (json_or_empty req) = inr (JInt z) ->
  float_of_Z z = inl OverflowError ->
  py_get "created_at" (json_or_empty req) = inr created_at ->
  check_created_at now created_at = Some stamp ->
  well_referenced st (json_or_empty req') uid' cid' amount_f ->
  py_get "created_at" (json_or_empty req') = inr created_at' ->
  check_created_at now' created_at' = Some stamp' ->
  exists st1 r st2,
    create_record now req st = (Raised OverflowError, st1)
    /\ _records st1 = _records st
    /\ create_record now' req' st1 = (Returned (record_json r) 201, st2)
    /\ r_id r = n_record (_counters st) + 2
    /\ response_id (record_json r) = Some (n_record (_counters st) + 2)
    /\ Dict.get (n_record (_counters st) + 1) (_records st2) = None
    /\ forall cs,
         Dict.get (n_record (_counters st) + 1) (_records (run cs st1)) = None
         /\ get_record (n_record (_counters st) + 1) (run cs st1)
            = (_error ("record " ++ str_of_Z (n_record (_counters st) + 1)
                       ++ " not found") 404,
               run cs st1).
Proof.
  intros Hok Hu Huin Hc Hcin Ha Hf Hcreated Hstamp Href Hcreated' Hstamp'.
  apply state_ok_inv in Hok. destruct Hok as (_ & _ & Hr & _).
  pose proof (table_inv_fresh Hr) as Hfresh.
  eexists. eexists. eexists. split.
  - eapply create_record_overflow; eauto.
  - split; [reflexivity|]. split.
    + apply create_record_succeeds with (created_at := created_at');
        [exact Href | exact Hcreated' | exact Hstamp'].
    + split; [unfold minted_record; simpl; lia|].
      split; [change (Some (n_record (_counters st) + 1 + 1)
                     = Some (n_record (_counters st) + 2)); f_equal; lia|].
      split.
      * unfold with_new_record, minted_record. cbn [_records r_id].
        rewrite DictFacts.get_set_other by (simpl; lia).
        cbn [_records with_counters].
        now apply get_absent.
      * intros cs.
        assert (Hgone : Dict.get (n_record (_counters st) + 1)
                          (_records
                             (run cs
                                (with_counters
                                   (set_counter Krecord
                                      (n_record (_counters st) + 1)
                                      (_counters st)) st))) = None).
        { apply get_absent. apply passed_id_free_forever.
          - simpl. lia.
          - exact Hfresh. }
        split; [exact Hgone|]. unfold get_record. now rewrite Hgone.
Qed.

(** X13: a [created_at] that is neither [null] nor a string the parser
    takes is answered with 400 and nothing is stored; a number, a boolean, a
    list or an object there does not make the handler raise. *)
Theorem bad_created_at_is_400
    (now : datetime) (req : request) (st : state)
    (uid cid : pyint) (amount_f : spec_float) (created_at : json) :
  well_referenced st (json_or_empty req) uid cid amount_f ->
  py_get "created_at" (json_or_empty req) = inr created_at ->
  created_at <> JNull ->
  (forall s, created_at = JStr s -> fromisoformat (replace_Z s) = false) ->
  create_record now req st =
    (_error "field 'created_at' must be ISO8601 string like 2025-10-13T10:00:00Z"
            400, st).
Proof.
  intros (Hu & Huin & Hc & Hcin & amount & Ha & Hf) Hcreated Hnull Hbad.
  assert (Hcheck : check_created_at now created_at = None).
  { destruct created_at; try reflexivity; [contradiction|].
    simpl. now rewrite (Hbad s eq_refl). }
  unfold create_record, try_, respond.
  rewrite Hu, Hc, Ha, Hcreated, !as_int_pyint_json.
  rewrite (py_float_is_number _ Hf). simpl.
  now rewrite Huin, Hcin, Hcheck.
Qed.

(** X14: [get_user] and [get_record] answer 404 for an id that is not
    stored and leave the state; for a stored id they return, with 200, the
    entity of the table whose [id] is the id asked for. *)
Theorem get_returns_the_id_asked_for (st : state) (i : Z) :
  state_ok st = true ->
  (Dict.contains i (_users st) = false ->
     get_user i st = (_error ("user " ++ str_of_Z i ++ " not found") 404, st))
  /\ (Dict.contains i (_users st) = true ->
      exists u, get_user i st = (Returned (user_json u) 200, st)
                /\ u_id u = i /\ In u (Dict.values (_users st)))
  /\ (Dict.contains i (_records st) = false ->
      get_record i st = (_error ("record " ++ str_of_Z i ++ " not found") 404, st))
  /\ (Dict.contains i (_records st) = true ->
      exists r, get_record i st = (Returned (record_json r) 200, st)
                /\ r_id r = i /\ In r (Dict.values (_records st))).
Proof.
  intros Hok. apply state_ok_inv in Hok.
  destruct Hok as ([Hwu Hbu] & _ & [Hwr Hbr] & _).
  unfold get_user, get_record. split; [|split; [|split]].
  - intros Hno. now rewrite (get_absent _ _ Hno).
  - intros Hin. destruct (get_present _ Hwu Hin) as (u & Hget & Hu).
    exists u. rewrite Hget. split; [reflexivity|].
    split; [now destruct (Hbu _ _ Hu)|].
    unfold Dict.values. change u with (snd (i, u)). now apply in_map.
  - intros Hno. now rewrite (get_absent _ _ Hno).
  - intros Hin. destruct (get_present _ Hwr Hin) as (r & Hget & Hr).
    exists r. rewrite Hget. split; [reflexivity|].
    split; [now destruct (Hbr _ _ Hr)|].
    unfold Dict.values. change r with (snd (i, r)). now apply in_map.
Qed.
End Compositions.

(** ** Positive ids and names that are not empty *)

Section Entries.
Variables (V : Type) (P : Z -> V -> Prop).
Implicit Types (d : Dict.t V).

Definition all_entries d : Prop := forall k v, In (k, v) d -> P k v.

Lemma all_entries_filter (p : Z * V -> bool) d :
  all_entries d -> all_entries (filter p d).
Proof. intros H k v Hin. apply filter_In in Hin. apply H. tauto. Qed.

Lemma all_entries_set k v d :
  P k v -> all_entries d -> all_entries (Dict.set k v d).
Proof.
  intros Hnew H k' v' Hin. apply In_set in Hin.
  destruct Hin as [Heq|Hin]; [|now apply H]. now injection Heq as -> ->.
Qed.
End Entries.

(** The counters are not negative, the ids in the tables are at least 1,
    and no user and no category has the empty name. *)
Definition entities_ok (st : state) : Prop :=
  (0 <= n_user (_counters st) /\ 0 <= n_category (_counters st)
   /\ 0 <= n_record (_counters st))
  /\ all_entries (fun k u => 1 <= k /\ u_name u <> "") (_users st)
  /\ all_entries (fun k c => 1 <= k /\ c_name c <> "") (_categories st)
  /\ all_entries (fun k (r : record) => 1 <= k) (_records st).

Section EntitiesOk.
Context {rt : PyRuntime}.

Lemma truthy_name (s : string) : negb (py_truthy (JStr s)) = false -> s <> "".
Proof.
  simpl. intros H ->. discriminate.
Qed.

Lemma dispatch_entities_ok (c : call) (st : state) :
  entities_ok st -> entities_ok (snd (dispatch c st)).
Proof.
  intros Hok. pose proof Hok as ((Hnu & Hnc & Hnr) & Hu & Hc & Hr).
  destruct c; cbn [dispatch]; try exact Hok.
  - unfold get_user. now destruct (Dict.get user_id (_users st)).
  - unfold delete_user.
    destruct (negb (Dict.contains user_id (_users st))); [exact Hok|].
    unfold entities_ok.
    cbn [snd _records _users _categories _counters with_users with_records].
    rewrite DictFacts.pop_all_filter.
    split; [auto|]. split; [now apply all_entries_filter|].
    split; [assumption | now apply all_entries_filter].
  - unfold create_user, try_, respond.
    destruct (py_get "name" (json_or_empty req)) as [e|name]; [exact Hok|].
    destruct name; try exact Hok.
    destruct (negb (py_truthy (JStr s))) eqn:Hs; [exact Hok|].
    apply truthy_name in Hs. unfold entities_ok, _next_id.
    cbn [fst snd _records _users _categories _counters with_users with_counters
         set_counter counter n_user n_category n_record].
    split; [repeat split; lia|]. split; [|split; assumption].
    apply all_entries_set; [|assumption]. simpl. split; [lia | assumption].
  - unfold create_category, try_, respond.
    destruct (py_get "name" (json_or_empty req)) as [e|name]; [exact Hok|].
    destruct name; try exact Hok.
    destruct (negb (py_truthy (JStr s))) eqn:Hs; [exact Hok|].
    destruct (name_taken s (_categories st)); [exact Hok|].
    apply truthy_name in Hs. unfold entities_ok, _next_id.
    cbn [fst snd _records _users _categories _counters with_categories
         with_counters set_counter counter n_user n_category n_record].
    split; [repeat split; lia|]. split; [assumption|]. split; [|assumption].
    apply all_entries_set; [|assumption]. simpl. split; [lia | assumption].
  - unfold delete_category, try_, respond.
    destruct (category_id_source req) as [e|v]; [exact Hok|].
    destruct (as_int v) as [cat_id|]; [|exact Hok].
    destruct (negb (Dict.contains (int_val cat_id) (_categories st)));
      [exact Hok|].
    unfold entities_ok.
    cbn [snd _records _users _categories _counters with_categories with_records].
    rewrite DictFacts.pop_all_filter.
    split; [auto|]. split; [assumption|].
    split; now apply all_entries_filter.
  - unfold get_record. now destruct (Dict.get record_id (_records st)).
  - unfold delete_record.
    destruct (negb (Dict.contains record_id (_records st))); [exact Hok|].
    unfold entities_ok.
    cbn [snd _records _users _categories _counters with_records].
    split; [auto|]. split; [assumption|]. split; [assumption|].
    now apply all_entries_filter.
  - unfold create_record, try_, respond.
    destruct (py_get "user_id" (json_or_empty req)) as [e|user_id]; [exact Hok|].
    destruct (py_get "category_id" (json_or_empty req)) as [e|category_id];
      [exact Hok|].
    destruct (py_get "amount" (json_or_empty req)) as [e|amount]; [exact Hok|].
    destruct (py_get "created_at" (json_or_empty req)) as [e|created_at];
      [exact Hok|].
    destruct (as_int user_id) as [uid|]; [|exact Hok].
    destruct (as_int category_id) as [cid|]; [|exact Hok].
    destruct (negb (is_number amount)); [exact Hok|].
    destruct (negb (Dict.contains (int_val uid) (_users st))); [exact Hok|].
    destruct (negb (Dict.contains (int_val cid) (_categories st))); [exact Hok|].
    destruct (check_created_at now created_at); [|exact Hok].
    unfold _next_id, entities_ok.
    destruct (py_float amount) as [e|amount_f];
      cbn [fst snd _records _users _categories _counters with_records
           with_counters set_counter counter n_user n_category n_record].
    + split; [repeat split; lia|]. auto.
    + split; [repeat split; lia|]. split; [assumption|]. split; [assumption|].
      apply all_entries_set; [lia | assumption].
  - unfold list_records.
    now destruct (args_get_int "user_id" req), (args_get_int "category_id" req).
Qed.

(** X15: after any sequence of requests, every id in a table is at least
    1, and no stored user and no stored category has the empty name. *)
Theorem ids_positive_names_not_empty (cs : list call) :
  (forall i, In i (Dict.keys (_users (run cs initial_state))
                   ++ Dict.keys (_categories (run cs initial_state))
                   ++ Dict.keys (_records (run cs initial_state))) -> 1 <= i)
  /\ (forall u, In u (Dict.values (_users (run cs initial_state))) ->
                u_name u <> "")
  /\ (forall c, In c (Dict.values (_categories (run cs initial_state))) ->
                c_name c <> "").
Proof.
  assert (Hok : entities_ok (run cs initial_state)).
  { unfold run.
    assert (H : entities_ok initial_state).
    { split; [simpl; lia|]. split; [|split]; intros k v []. }
    revert H. generalize initial_state.
    induction cs as [|c rest IH]; intros st Hst; simpl; [assumption|].
    apply IH. now apply dispatch_entities_ok. }
  destruct Hok as (_ & Hu & Hc & Hr).
  split; [|split].
  - intros i Hi. unfold Dict.keys in Hi.
    apply in_app_or in Hi. destruct Hi as [Hi|Hi];
      [|apply in_app_or in Hi; destruct Hi as [Hi|Hi]];
      apply in_map_iff in Hi; destruct Hi as [[k v] [<- Hin]]; simpl.
    + now destruct (Hu k v Hin).
    + now destruct (Hc k v Hin).
    + exact (Hr k v Hin).
  - intros u Hin. unfold Dict.values in Hin. apply in_map_iff in Hin.
    destruct Hin as [[k v] [<- Hin]]. now destruct (Hu k v Hin).
  - intros c Hin. unfold Dict.values in Hin. apply in_map_iff in Hin.
    destruct Hin as [[k v] [<- Hin]]. now destruct (Hc k v Hin).
Qed.
End EntitiesOk.

(** ** Timestamps handed out and sent back *)

Module ReplaceFacts.

Lemma replace_Z_app (a b : string) :
  replace_Z (a ++ b) = (replace_Z a ++ replace_Z b)%string.
Proof.
  induction a as [|c a IH]; simpl; [reflexivity|].
  destruct (Ascii.eqb c "Z"); simpl; now rewrite IH.
Qed.

Lemma digit_is_not_Z (c : ascii) :
  Iso8601.is_digit c = true -> Ascii.eqb c "Z" = false.
Proof.
  intros Hd. destruct (Ascii.eqb_spec c "Z") as [->|]; [discriminate | reflexivity].
Qed.

Lemma replace_Z_zpad (w : nat) (n : Z) : replace_Z (zpad w n) = zpad w n.
Proof.
  induction w as [|w IH]; [reflexivity|]. cbn [zpad replace_Z].
  assert (Hpow : 0 < 10 ^ Z.of_nat w) by (apply Z.pow_pos_nonneg; lia).
  assert (Hd : 0 <= (n / 10 ^ Z.of_nat w) mod 10 < 10)
    by (apply Z.mod_pos_bound; lia).
  destruct (Iso8601Facts.digit_char_digit Hd) as [Hdig _].
  now rewrite (digit_is_not_Z _ Hdig), IH.
Qed.

(** The clock's timestamp has no [Z] in it. *)
Lemma replace_Z_isoformat (t : datetime) : replace_Z (isoformat t) = isoformat t.
Proof.
  unfold isoformat. rewrite !replace_Z_app, !replace_Z_zpad.
  destruct (microsecond t =? 0); [reflexivity|].
  now rewrite replace_Z_app, replace_Z_zpad.
Qed.
End ReplaceFacts.

(** X16: a timestamp that the service made up for a record is taken back
    as an explicit [created_at]: the clock's timestamp contains no [Z], so
    only the [Z] appended to it is rewritten, and when the parser takes the
    timestamp with the offset [+00:00] the record is created, stored under
    its id with the string as it was sent, and returned with that string by
    [create_record] and by [get_record]. *)
Theorem default_timestamp_is_taken_back
    (rt : PyRuntime) (t now : datetime) (req : request) (st : state)
    (uid cid : pyint) (amount_f : spec_float) :
  well_referenced st (json_or_empty req) uid cid amount_f ->
  py_get "created_at" (json_or_empty req) = inr (JStr (isoformat t ++ "Z")) ->
  fromisoformat (isoformat t ++ "+00:00") = true ->
  replace_Z (isoformat t ++ "Z") = (isoformat t ++ "+00:00")%string
  /\ exists rec_id st',
       create_record now req st =
         (Returned
            (JObj [("id", JInt rec_id);
                   ("user_id", pyint_json uid);
                   ("category_id", pyint_json cid);
                   ("created_at", JStr (isoformat t ++ "Z"));
                   ("amount", JFloat amount_f)]) 201, st')
       /\ Dict.get rec_id (_records st')
          = Some (mkRecord rec_id uid cid (isoformat t ++ "Z") amount_f)
       /\ get_record rec_id st' =
            (Returned
               (JObj [("id", JInt rec_id);
                      ("user_id", pyint_json uid);
                      ("category_id", pyint_json cid);
                      ("created_at", JStr (isoformat t ++ "Z"));
                      ("amount", JFloat amount_f)]) 200, st').
Proof.
  intros Href Hcreated Hparse.
  assert (Hrep : replace_Z (isoformat t ++ "Z") = (isoformat t ++ "+00:00")%string).
  { rewrite ReplaceFacts.replace_Z_app, ReplaceFacts.replace_Z_isoformat.
    reflexivity. }
  split; [exact Hrep|].
  assert (Hstored :
            Dict.get (n_record (_counters st) + 1)
              (_records (with_new_record st
                           (minted_record st uid cid (isoformat t ++ "Z") amount_f)))
            = Some (mkRecord (n_record (_counters st) + 1) uid cid
                             (isoformat t ++ "Z") amount_f))
    by apply DictFacts.get_set_same.
  exists (n_record (_counters st) + 1).
  exists (with_new_record st
            (minted_record st uid cid (isoformat t ++ "Z") amount_f)).
  split; [|split; [exact Hstored|]].
  - rewrite (create_record_succeeds now req
               (created_at := JStr (isoformat t ++ "Z"))
               (stamp := (isoformat t ++ "Z")%string) Href Hcreated);
      [reflexivity|].
    cbn [check_created_at]. rewrite Hrep, Hparse. reflexivity.
  - unfold get_record. rewrite Hstored. reflexivity.
Qed.

(** ** The further properties at sample inputs *)

Lemma responses_are_uniform_witness :
  dispatch (rt := ascii_runtime) (DeleteUser 99) sample_state
  = (_error "user 99 not found" 404, sample_state)
  /\ exists message,
       JObj [("error", JStr "user 99 not found")] = JObj [("error", JStr message)].
Proof.
  assert (Hrun : dispatch (rt := ascii_runtime) (DeleteUser 99) sample_state
                 = (_error "user 99 not found" 404, sample_state))
    by reflexivity.
  split; [exact Hrun|].
  destruct (@responses_are_uniform ascii_runtime _ _ _ _ _ Hrun)
    as (_ & Herr & _).
  destruct Herr as [_ Hshape]; [discriminate | discriminate | exact Hshape].
Defined.

Lemma reads_keep_state_witness :
  reads_only (ListRecords (query_request [("user_id", "1")])) = true
  /\ exists body status,
       dispatch (rt := ascii_runtime)
         (ListRecords (query_request [("user_id", "1")])) sample_state
       = (Returned body status, sample_state).
Proof.
  split; [reflexivity|].
  exact (@reads_keep_state ascii_runtime
           (ListRecords (query_request [("user_id", "1")])) sample_state eq_refl).
Defined.

Lemma raises_are_three_witness :
  dispatch (rt := ascii_runtime)
    (CreateCategory (mkRequest [] (Read (Some (JArr [JInt 1]))))) sample_state
  = (Raised AttributeError, sample_state)
  /\ (exists req v,
        body_request (CreateCategory (mkRequest [] (Read (Some (JArr [JInt 1])))))
        = Some req
        /\ get_json req = Read (Some v) /\ py_truthy v = true)
  /\ dispatch (rt := ascii_runtime)
       (CreateRecord sample_now (mkRequest [] ReadRaises)) sample_state
     = (Raised RecursionError, sample_state).
Proof.
  assert (Hrun : dispatch (rt := ascii_runtime)
                   (CreateCategory (mkRequest [] (Read (Some (JArr [JInt 1])))))
                   sample_state
                 = (Raised AttributeError, sample_state)) by reflexivity.
  split; [exact Hrun|]. split.
  - destruct (@raises_are_three ascii_runtime
                (CreateCategory (mkRequest [] (Read (Some (JArr [JInt 1])))))
                sample_state) as [Hcases _].
    destruct (Hcases _ _ Hrun)
      as [(Hrec & _)|[(_ & _ & req & v & Hreq & Hv & Ht & _)|(Hover & _)]];
      [discriminate Hrec | | discriminate Hover].
    exists req, v. auto.
  - destruct (@raises_are_three ascii_runtime
                (CreateRecord sample_now (mkRequest [] ReadRaises))
                sample_state) as [_ Hconv].
    apply (Hconv (mkRequest [] ReadRaises) eq_refl eq_refl).
    intros r Hr. discriminate Hr.
Defined.

Lemma create_then_get_user_witness :
  state_ok sample_state = true
  /\ exists u st',
       create_user (json_request [("name", JStr "cy")]) sample_state
       = (Returned (user_json u) 201, st')
       /\ u_name u = "cy"%string
       /\ response_id (user_json u) = Some (u_id u)
       /\ get_user (u_id u) st' = (Returned (user_json u) 200, st')
       /\ Dict.values (_users st') = Dict.values (_users sample_state) ++ [u].
Proof.
  split; [reflexivity|].
  apply (@create_then_get_user (json_request [("name", JStr "cy")])
           sample_state "cy" eq_refl eq_refl).
  discriminate.
Defined.

Lemma created_name_is_taken_witness :
  name_taken (rt := ascii_runtime) "Toys" (_categories sample_state) = false
  /\ exists c st',
       create_category (rt := ascii_runtime)
         (json_request [("name", JStr "Toys")]) sample_state
       = (Returned (category_json c) 201, st')
       /\ c_name c = "Toys"%string
       /\ create_category (rt := ascii_runtime)
            (json_request [("name", JStr "tOYS")]) st'
          = (_error "category with this name already exists" 409, st').
Proof.
  split; [reflexivity|].
  apply (@created_name_is_taken ascii_runtime
           (json_request [("name", JStr "Toys")])
           (json_request [("name", JStr "tOYS")])
           sample_state "Toys" "tOYS" eq_refl);
    [discriminate | reflexivity | reflexivity | reflexivity].
Defined.

Lemma deleted_is_gone_witness :
  Dict.contains 1 (_users sample_state) = true
  /\ get_user 1 (snd (delete_user 1 sample_state))
     = (_error "user 1 not found" 404, snd (delete_user 1 sample_state)).
Proof.
  split; [reflexivity|].
  destruct (@deleted_is_gone ascii_runtime sample_state) as (Huser & _ & _).
  destruct (Huser 1 eq_refl) as [Hget _]. exact Hget.
Defined.

Lemma deleted_owner_has_no_records_witness :
  Dict.contains 1 (_users sample_state) = true
  /\ args_get_int (rt := ascii_runtime) "user_id"
       (query_request [("user_id", "1")]) = Some 1
  /\ list_records (rt := ascii_runtime) (query_request [("user_id", "1")])
       (snd (delete_user 1 sample_state))
     = (Returned (JObj [("items", JArr []); ("total", JInt 0)]) 200,
        snd (delete_user 1 sample_state)).
Proof.
  split; [reflexivity|]. split; [reflexivity|].
  destruct (@deleted_owner_has_no_records ascii_runtime sample_state
              (query_request [("user_id", "1")])) as [Huser _].
  exact (Huser 1 eq_refl eq_refl).
Defined.

Lemma new_record_listed_last_witness :
  state_ok sample_state = true
  /\ exists r st' before,
       create_record (rt := ascii_runtime) sample_now
         (json_request [("user_id", JInt 2); ("category_id", JInt 1);
                        ("amount", JInt 12)]) sample_state
       = (Returned (record_json r) 201, st')
       /\ before = matching (Some 2) None (Dict.values (_records sample_state))
       /\ list_records (rt := ascii_runtime) (query_request [("user_id", "2")]) st'
          = (Returned
               (JObj [("items", JArr (map record_json (before ++ [r])));
                      ("total", JInt (Z.of_nat (List.length (before ++ [r]))))])
               200, st').
Proof.
  split; [reflexivity|].
  exact (@new_record_listed_last ascii_runtime sample_now
           (json_request [("user_id", JInt 2); ("category_id", JInt 1);
                          ("amount", JInt 12)])
           (query_request [("user_id", "2")]) sample_state (PInt 2) (PInt 1) _
           JNull "2025-10-13T10:00:00Z" eq_refl (sample_well_referenced [])
           eq_refl eq_refl eq_refl eq_refl).
Defined.

Lemma overflow_skips_an_id_witness :
  float_of_Z (10 ^ 400) = inl OverflowError
  /\ exists st1 r st2,
       create_record (rt := ascii_runtime) sample_now
         (json_request [("user_id", JInt 1); ("category_id", JInt 1);
                        ("amount", JInt (10 ^ 400))]) sample_state
       = (Raised OverflowError, st1)
       /\ _records st1 = _records sample_state
       /\ create_record (rt := ascii_runtime) sample_now
            (json_request [("user_id", JInt 2); ("category_id", JInt 1);
                           ("amount", JInt 12)]) st1
          = (Returned (record_json r) 201, st2)
       /\ r_id r = 3 + 2
       /\ response_id (record_json r) = Some (3 + 2)
       /\ Dict.get (3 + 1) (_records st2) = None
       /\ forall cs,
            Dict.get (3 + 1) (_records (run (rt := ascii_runtime) cs st1)) = None
            /\ get_record (3 + 1) (run (rt := ascii_runtime) cs st1)
               = (_error "record 4 not found" 404,
                  run (rt := ascii_runtime) cs st1).
Proof.
  split; [reflexivity|].
  exact (@overflow_skips_an_id ascii_runtime sample_now sample_now
           (json_request [("user_id", JInt 1); ("category_id", JInt 1);
                          ("amount", JInt (10 ^ 400))])
           (json_request [("user_id", JInt 2); ("category_id", JInt 1);
                          ("amount", JInt 12)])
           sample_state (PInt 1) (PInt 1) (PInt 2) (PInt 1) (10 ^ 400) _
           JNull JNull "2025-10-13T10:00:00Z" "2025-10-13T10:00:00Z"
           eq_refl eq_refl eq_refl eq_refl eq_refl eq_refl eq_refl eq_refl eq_refl
           (sample_well_referenced []) eq_refl eq_refl).
Defined.

Lemma bad_created_at_is_400_witness :
  create_record (rt := ascii_runtime) sample_now
    (json_request [("user_id", JInt 2); ("category_id", JInt 1);
                   ("amount", JInt 12); ("created_at", JInt 5)]) sample_state
  = (_error "field 'created_at' must be ISO8601 string like 2025-10-13T10:00:00Z"
            400, sample_state).
Proof.
  apply (@bad_created_at_is_400 ascii_runtime sample_now
           (json_request [("user_id", JInt 2); ("category_id", JInt 1);
                          ("amount", JInt 12); ("created_at", JInt 5)])
           sample_state (PInt 2) (PInt 1) _ (JInt 5)
           (sample_well_referenced [("created_at", JInt 5)]) eq_refl);
    [discriminate | intros s; discriminate].
Defined.

Lemma get_returns_the_id_asked_for_witness :
  state_ok sample_state = true
  /\ Dict.contains 2 (_records sample_state) = true
  /\ exists r, get_record 2 sample_state = (Returned (record_json r) 200, sample_state)
               /\ r_id r = 2 /\ In r (Dict.values (_records sample_state)).
Proof.
  split; [reflexivity|]. split; [reflexivity|].
  destruct (get_returns_the_id_asked_for sample_state 2 eq_refl)
    as (_ & _ & _ & Hrec).
  exact (Hrec eq_refl).
Defined.

Lemma ids_positive_names_not_empty_witness :
  In (mkUser 2 "bob")
     (Dict.values (_users (run (rt := ascii_runtime) sample_calls initial_state)))
  /\ u_name (mkUser 2 "bob") <> ""%string.
Proof.
  assert (Hin : In (mkUser 2 "bob")
                   (Dict.values (_users (run (rt := ascii_runtime) sample_calls
                                             initial_state)))).
  { right. left. reflexivity. }
  split; [exact Hin|].
  destruct (@ids_positive_names_not_empty ascii_runtime sample_calls)
    as (_ & Hnames & _).
  exact (Hnames _ Hin).
Defined.

Lemma default_timestamp_is_taken_back_witness :
  fromisoformat (PyRuntime := ascii_runtime) (isoformat sample_now ++ "+00:00")
  = true
  /\ exists rec_id st',
       create_record (rt := ascii_runtime) sample_now
         (json_request [("user_id", JInt 2); ("category_id", JInt 1);
                        ("amount", JInt 12);
                        ("created_at", JStr "2025-10-13T10:00:00Z")])
         sample_state
       = (Returned
            (JObj [("id", JInt rec_id); ("user_id", JInt 2);
                   ("category_id", JInt 1);
                   ("created_at", JStr "2025-10-13T10:00:00Z");
                   ("amount", JFloat (S754_finite false 6755399441055744 (-49)))])
            201, st')
       /\ Dict.get rec_id (_records st')
          = Some (mkRecord rec_id (PInt 2) (PInt 1) "2025-10-13T10:00:00Z"
                           (S754_finite false 6755399441055744 (-49))).
Proof.
  split; [reflexivity|].
  destruct (@default_timestamp_is_taken_back ascii_runtime sample_now sample_now
              (json_request [("user_id", JInt 2); ("category_id", JInt 1);
                             ("amount", JInt 12);
                             ("created_at", JStr "2025-10-13T10:00:00Z")])
              sample_state (PInt 2) (PInt 1) _
              (sample_well_referenced
                 [("created_at", JStr "2025-10-13T10:00:00Z")])
              eq_refl eq_refl) as [_ (rec_id & st' & Hrun & Hstored & _)].
  exists rec_id, st'. split; [exact Hrun | exact Hstored].
Defined.

Lemma listings_in_creation_order_witness :
  args_get_int (rt := ascii_runtime) "user_id"
    (query_request [("user_id", "1")]) <> None
  /\ exists items ids,
       list_records (rt := ascii_runtime) (query_request [("user_id", "1")])
         (run (rt := ascii_runtime) sample_calls initial_state)
       = (Returned (JObj [("items", JArr items);
                          ("total", JInt (Z.of_nat (List.length items)))]) 200,
          run (rt := ascii_runtime) sample_calls initial_state)
       /\ map response_id items = map Some ids
       /\ StronglySorted Z.lt ids.
Proof.
  assert (G : args_get_int (rt := ascii_runtime) "user_id"
                (query_request [("user_id", "1")]) <> None) by discriminate.
  split; [exact G|].
  destruct (@listings_in_creation_order ascii_runtime sample_calls
              (query_request [("user_id", "1")])) as (_ & _ & Hrecords).
  exact (Hrecords (or_introl G)).
Defined.
